(** * Attention-Monitor: the temporal attention-state tracker

    A shallow embedding of [src/attention_tracker.py] (class
    [AttentionTracker]) and the properties of its specification.

    Modelling conventions.
    - Python [float] values (angles, thresholds, times, confidence) are
      exact rationals [Q]: rounding, infinities and NaN are outside the
      model.  The concrete angles and clock values used below are small
      integers, on which binary64 arithmetic is exact, and the quotient of
      two integers below 2^53 compares with 0.5 as its rounding does.
    - Python [int] values (window size, counters) are [Z].
    - The two strings ["looking"] and ["not_looking"] are the constructors
      of [AttentionState].
    - [time.time()] is an explicit argument [now] of the operations that
      read the clock ([__init__], [update], [reset]).
    - The object [self] is threaded explicitly; an operation that can raise
      returns the mutated object together with the exception or the result. *)

From Stdlib Require Import ZArith QArith Qabs List Bool Lia Lqa.
From Stdlib Require String.
Import ListNotations.
Import String.StringSyntax.
Delimit Scope string_scope with string.

Local Open Scope Z_scope.

(** ** Values *)

Inductive AttentionState : Set :=
| looking
| not_looking.

Definition state_eqb (a b : AttentionState) : bool :=
  match a, b with
  | looking, looking | not_looking, not_looking => true
  | _, _ => false
  end.

(** The exceptions the tracker's code can raise. *)
Inductive PyError : Set :=
| ValueError          (* deque(maxlen=n) with n < 0 *)
| OverflowError       (* deque(maxlen=n) with n outside the C ssize_t range *)
| ZeroDivisionError.  (* looking_count / len(state_buffer) on an empty buffer *)

(** [sys.maxsize], the largest C [ssize_t], on a 64-bit build of CPython. *)
Definition PY_SSIZE_T_MAX : Z := 9223372036854775807.

(** Strict comparison of floats, [a < b]. *)
Definition Qlt_bool (a b : Q) : bool := negb (Qle_bool b a).

(** ** collections.deque with a maximum length *)

Module deque.

Record t : Set := make { maxlen : Z; items : list AttentionState }.

(** [deque(maxlen=n)]: the integer is converted to a C [ssize_t], which
    raises [OverflowError] when it does not fit; a negative [n] then raises
    [ValueError]. *)
Definition new (n : Z) : PyError + t :=
  if (n <? - PY_SSIZE_T_MAX - 1) || (PY_SSIZE_T_MAX <? n)
  then inl OverflowError
  else if n <? 0 then inl ValueError
  else inr (make n []).

Definition len (d : t) : Z := Z.of_nat (length (items d)).

(** [d.append(x)]: the item is added on the right and, when the deque is
    then longer than [maxlen], the leftmost item is dropped. *)
Definition append (d : t) (x : AttentionState) : t :=
  let xs := items d ++ [x] in
  make (maxlen d)
       (if maxlen d <? Z.of_nat (length xs) then tl xs else xs).

(** [d.count(x)] *)
Definition count (d : t) (x : AttentionState) : Z :=
  Z.of_nat (length (filter (state_eqb x) (items d))).

(** [d.clear()] *)
Definition clear (d : t) : t := make (maxlen d) [].

End deque.

(** ** The tracker object *)

Record AttentionTracker : Set := mkTracker {
  alert_threshold : Q;
  yaw_threshold : Q;
  pitch_threshold : Q;
  smoothing_window : Z;
  min_consecutive_frames : Z;
  (* State *)
  current_state : AttentionState;
  previous_state : AttentionState;
  state_buffer : deque.t;
  consecutive_count : Z;
  (* Time tracking *)
  time_not_looking : Q;
  last_update_time : Q;
  alert_active : bool;
  (* Statistics *)
  total_frames : Z;
  frames_looking : Z;
  frames_not_looking : Z
}.

(** Attribute assignment, [self.f = v], one setter per assigned attribute. *)

Definition set_current_state (v : AttentionState) (s : AttentionTracker) :=
  mkTracker (alert_threshold s) (yaw_threshold s) (pitch_threshold s)
    (smoothing_window s) (min_consecutive_frames s)
    v (previous_state s) (state_buffer s) (consecutive_count s)
    (time_not_looking s) (last_update_time s) (alert_active s)
    (total_frames s) (frames_looking s) (frames_not_looking s).

Definition set_previous_state (v : AttentionState) (s : AttentionTracker) :=
  mkTracker (alert_threshold s) (yaw_threshold s) (pitch_threshold s)
    (smoothing_window s) (min_consecutive_frames s)
    (current_state s) v (state_buffer s) (consecutive_count s)
    (time_not_looking s) (last_update_time s) (alert_active s)
    (total_frames s) (frames_looking s) (frames_not_looking s).

Definition set_state_buffer (v : deque.t) (s : AttentionTracker) :=
  mkTracker (alert_threshold s) (yaw_threshold s) (pitch_threshold s)
    (smoothing_window s) (min_consecutive_frames s)
    (current_state s) (previous_state s) v (consecutive_count s)
    (time_not_looking s) (last_update_time s) (alert_active s)
    (total_frames s) (frames_looking s) (frames_not_looking s).

Definition set_consecutive_count (v : Z) (s : AttentionTracker) :=
  mkTracker (alert_threshold s) (yaw_threshold s) (pitch_threshold s)
    (smoothing_window s) (min_consecutive_frames s)
    (current_state s) (previous_state s) (state_buffer s) v
    (time_not_looking s) (last_update_time s) (alert_active s)
    (total_frames s) (frames_looking s) (frames_not_looking s).

Definition set_time_not_looking (v : Q) (s : AttentionTracker) :=
  mkTracker (alert_threshold s) (yaw_threshold s) (pitch_threshold s)
    (smoothing_window s) (min_consecutive_frames s)
    (current_state s) (previous_state s) (state_buffer s) (consecutive_count s)
    v (last_update_time s) (alert_active s)
    (total_frames s) (frames_looking s) (frames_not_looking s).

Definition set_last_update_time (v : Q) (s : AttentionTracker) :=
  mkTracker (alert_threshold s) (yaw_threshold s) (pitch_threshold s)
    (smoothing_window s) (min_consecutive_frames s)
    (current_state s) (previous_state s) (state_buffer s) (consecutive_count s)
    (time_not_looking s) v (alert_active s)
    (total_frames s) (frames_looking s) (frames_not_looking s).

Definition set_alert_active (v : bool) (s : AttentionTracker) :=
  mkTracker (alert_threshold s) (yaw_threshold s) (pitch_threshold s)
    (smoothing_window s) (min_consecutive_frames s)
    (current_state s) (previous_state s) (state_buffer s) (consecutive_count s)
    (time_not_looking s) (last_update_time s) v
    (total_frames s) (frames_looking s) (frames_not_looking s).

Definition set_total_frames (v : Z) (s : AttentionTracker) :=
  mkTracker (alert_threshold s) (yaw_threshold s) (pitch_threshold s)
    (smoothing_window s) (min_consecutive_frames s)
    (current_state s) (previous_state s) (state_buffer s) (consecutive_count s)
    (time_not_looking s) (last_update_time s) (alert_active s)
    v (frames_looking s) (frames_not_looking s).

Definition set_frames_looking (v : Z) (s : AttentionTracker) :=
  mkTracker (alert_threshold s) (yaw_threshold s) (pitch_threshold s)
    (smoothing_window s) (min_consecutive_frames s)
    (current_state s) (previous_state s) (state_buffer s) (consecutive_count s)
    (time_not_looking s) (last_update_time s) (alert_active s)
    (total_frames s) v (frames_not_looking s).

Definition set_frames_not_looking (v : Z) (s : AttentionTracker) :=
  mkTracker (alert_threshold s) (yaw_threshold s) (pitch_threshold s)
    (smoothing_window s) (min_consecutive_frames s)
    (current_state s) (previous_state s) (state_buffer s) (consecutive_count s)
    (time_not_looking s) (last_update_time s) (alert_active s)
    (total_frames s) (frames_looking s) v.

(** The dictionary returned by [update]. *)
Module FrameResult.
Record t : Set := make {
  state : AttentionState;
  time_not_looking : Q;
  alert_active : bool;
  confidence : Q;
  raw_state : AttentionState
}.
End FrameResult.

(** The dictionary returned by [get_statistics]. *)
Module Stats.
Record t : Set := make {
  total_frames : Z;
  frames_looking : Z;
  frames_not_looking : Z;
  attention_ratio : Q;
  current_state : AttentionState;
  time_not_looking : Q;
  alert_active : bool
}.
End Stats.

(** ** AttentionTracker.__init__

    No argument is checked.  The only statement that can raise is
    [deque(maxlen=smoothing_window)]. *)
Definition __init__ (now : Q)
    (alert_threshold yaw_threshold pitch_threshold : Q)
    (smoothing_window min_consecutive_frames : Z) : PyError + AttentionTracker :=
  match deque.new smoothing_window with
  | inl e => inl e
  | inr buffer =>
      inr (mkTracker alert_threshold yaw_threshold pitch_threshold
             smoothing_window min_consecutive_frames
             looking looking buffer 0
             0%Q now false
             0 0 0)
  end.

(** Keyword defaults of [__init__]. *)
Definition default_alert_threshold : Q := 5.
Definition default_yaw_threshold : Q := 25.
Definition default_pitch_threshold : Q := 20.
Definition default_smoothing_window : Z := 5.
Definition default_min_consecutive_frames : Z := 3.

(** ** AttentionTracker.classify_attention

    [None] for either angle is [None : option Q]. *)
Definition classify_attention (self : AttentionTracker)
    (yaw pitch : option Q) : AttentionState :=
  match yaw, pitch with
  | Some yaw, Some pitch =>
      let is_looking :=
        Qlt_bool (Qabs yaw) (yaw_threshold self)
        && Qlt_bool (Qabs pitch) (pitch_threshold self) in
      if is_looking then looking else not_looking
  | _, _ => not_looking
  end.

(** ** AttentionTracker.update, block by block *)

(** "Smooth over buffer (majority vote)": the pair
    [(smoothed_state, confidence)]. *)
Definition smooth_over_buffer (self : AttentionTracker)
    (raw_state : AttentionState) : PyError + (AttentionState * Q) :=
  if smoothing_window self <=? deque.len (state_buffer self) then
    let looking_count := deque.count (state_buffer self) looking in
    if deque.len (state_buffer self) =? 0 then inl ZeroDivisionError
    else
      let confidence :=
        (inject_Z looking_count / inject_Z (deque.len (state_buffer self)))%Q in
      inr (if Qlt_bool (1#2) confidence then looking else not_looking,
           confidence)
  else
    let smoothed_state := raw_state in
    inr (smoothed_state,
         match smoothed_state with looking => 1%Q | not_looking => 0%Q end).

(** "Check for state transition" with "Confirm state change". *)
Definition check_state_transition (smoothed_state : AttentionState)
    (self : AttentionTracker) : AttentionTracker :=
  if negb (state_eqb smoothed_state (current_state self)) then
    let self :=
      if state_eqb smoothed_state (previous_state self)
      then set_consecutive_count (consecutive_count self + 1) self
      else set_previous_state smoothed_state (set_consecutive_count 1 self) in
    if min_consecutive_frames self <=? consecutive_count self then
      let self := set_current_state smoothed_state self in
      let self := set_consecutive_count 0 self in
      if state_eqb (current_state self) looking
      then set_alert_active false (set_time_not_looking 0%Q self)
      else self
    else self
  else
    set_previous_state smoothed_state (set_consecutive_count 0 self).

(** "Accumulate time". *)
Definition accumulate_time (delta_time : Q)
    (self : AttentionTracker) : AttentionTracker :=
  if state_eqb (current_state self) not_looking then
    let self :=
      set_time_not_looking (time_not_looking self + delta_time)%Q self in
    if Qle_bool (alert_threshold self) (time_not_looking self)
    then set_alert_active true self
    else self
  else self.

(** "Update statistics". *)
Definition update_statistics (self : AttentionTracker) : AttentionTracker :=
  let self := set_total_frames (total_frames self + 1) self in
  if state_eqb (current_state self) looking
  then set_frames_looking (frames_looking self + 1) self
  else set_frames_not_looking (frames_not_looking self + 1) self.

(** [update(yaw, pitch)] when [time.time()] reads [now].  An exception
    leaves the object with the assignments made before it. *)
Definition update (now : Q) (yaw pitch : option Q) (self : AttentionTracker)
  : AttentionTracker * (PyError + FrameResult.t) :=
  let current_time := now in
  let delta_time := (current_time - last_update_time self)%Q in
  let self := set_last_update_time current_time self in
  (* Classify current frame *)
  let raw_state := classify_attention self yaw pitch in
  let self :=
    set_state_buffer (deque.append (state_buffer self) raw_state) self in
  match smooth_over_buffer self raw_state with
  | inl e => (self, inl e)
  | inr (smoothed_state, confidence) =>
      let self := check_state_transition smoothed_state self in
      let self := accumulate_time delta_time self in
      let self := update_statistics self in
      (self,
       inr (FrameResult.make (current_state self) (time_not_looking self)
              (alert_active self) confidence raw_state))
  end.

(** ** AttentionTracker.reset *)
Definition reset (now : Q) (self : AttentionTracker) : AttentionTracker :=
  let self := set_current_state looking self in
  let self := set_previous_state looking self in
  let self := set_state_buffer (deque.clear (state_buffer self)) self in
  let self := set_consecutive_count 0 self in
  let self := set_time_not_looking 0%Q self in
  let self := set_last_update_time now self in
  set_alert_active false self.

(** ** AttentionTracker.get_statistics *)
Definition get_statistics (self : AttentionTracker) : Stats.t :=
  let attention_ratio :=
    if total_frames self =? 0 then 1%Q
    else (inject_Z (frames_looking self) / inject_Z (total_frames self))%Q in
  Stats.make (total_frames self) (frames_looking self)
    (frames_not_looking self) attention_ratio
    (current_state self) (time_not_looking self) (alert_active self).

(** ** Call sequences

    One [update] call: the clock value it reads and its two arguments. *)
Record Frame : Set := mkFrame {
  frame_time : Q;
  frame_yaw : option Q;
  frame_pitch : option Q
}.

Definition step (f : Frame) (self : AttentionTracker)
  : AttentionTracker * (PyError + FrameResult.t) :=
  update (frame_time f) (frame_yaw f) (frame_pitch f) self.

(** The object as [update] finds it when it reaches "Smooth over buffer". *)
Definition with_frame (f : Frame) (self : AttentionTracker)
  : AttentionTracker :=
  let self := set_last_update_time (frame_time f) self in
  set_state_buffer
    (deque.append (state_buffer self)
       (classify_attention self (frame_yaw f) (frame_pitch f)))
    self.

(** The local variables [smoothed_state] and [confidence] of the call. *)
Definition smoothed_of (f : Frame) (self : AttentionTracker)
  : PyError + (AttentionState * Q) :=
  smooth_over_buffer (with_frame f self)
    (classify_attention self (frame_yaw f) (frame_pitch f)).

Definition smoothed_state_of (f : Frame) (self : AttentionTracker)
  : PyError + AttentionState :=
  match smoothed_of f self with
  | inl e => inl e
  | inr (smoothed_state, _) => inr smoothed_state
  end.

(** The object after a sequence of calls; a call that raises leaves the
    object as the exception found it. *)
Fixpoint feed (self : AttentionTracker) (frames : list Frame)
  : AttentionTracker :=
  match frames with
  | [] => self
  | f :: frames => feed (fst (step f self)) frames
  end.

(** What the calls returned, first call first. *)
Fixpoint results (self : AttentionTracker) (frames : list Frame)
  : list (PyError + FrameResult.t) :=
  match frames with
  | [] => []
  | f :: frames => snd (step f self) :: results (fst (step f self)) frames
  end.

(** The smoothed classification of each call, first call first. *)
Fixpoint smoothed_trace (self : AttentionTracker) (frames : list Frame)
  : list (PyError + AttentionState) :=
  match frames with
  | [] => []
  | f :: frames =>
      smoothed_state_of f self :: smoothed_trace (fst (step f self)) frames
  end.

(** Length of the run of [s] that ends a trace, given latest call first. *)
Fixpoint streak (s : AttentionState) (latest_first : list (PyError + AttentionState))
  : Z :=
  match latest_first with
  | inr s' :: older => if state_eqb s s' then 1 + streak s older else 0
  | _ => 0
  end.

(** Number of calls, up to and including the last one of [trace], that
    produced the smoothed value [s] without interruption. *)
Definition consecutive (s : AttentionState)
    (trace : list (PyError + AttentionState)) : Z :=
  streak s (rev trace).

(** Objects a program can hold: built by [__init__], then used through
    [update] and [reset]. *)
Inductive reachable : AttentionTracker -> Prop :=
| reachable_init now a y p w m self :
    __init__ now a y p w m = inr self -> reachable self
| reachable_update f self :
    reachable self -> reachable (fst (step f self))
| reachable_reset now self :
    reachable self -> reachable (reset now self).

(** An object just built or just reset, statistics aside. *)
Definition fresh (self : AttentionTracker) : Prop :=
  current_state self = looking /\ previous_state self = looking
  /\ consecutive_count self = 0.

(** The configuration the specification admits. *)
Definition valid_config (self : AttentionTracker) : Prop :=
  1 <= smoothing_window self /\ 1 <= min_consecutive_frames self.

(** The deque was created with [maxlen = smoothing_window] and never holds more. *)
Definition buffer_ok (self : AttentionTracker) : Prop :=
  deque.maxlen (state_buffer self) = smoothing_window self
  /\ deque.len (state_buffer self) <= smoothing_window self.

(** The default tracker built at time [0] and the scenario of seven
    face-less frames at one-second intervals, [t = 0 .. 6]. *)
Definition default_tracker (now : Q) : PyError + AttentionTracker :=
  __init__ now default_alert_threshold default_yaw_threshold
    default_pitch_threshold default_smoothing_window
    default_min_consecutive_frames.

Definition absent_at (t : Z) : Frame := mkFrame (inject_Z t) None None.

Definition scenario_frames : list Frame :=
  map absent_at [0; 1; 2; 3; 4; 5; 6].

(** ** Predicates and worked objects of the proofs *)

(** The blocks after "Smooth over buffer" as one function of the object
    found there. *)
Definition after_smoothing (delta_time : Q) (smoothed_state : AttentionState)
    (self : AttentionTracker) : AttentionTracker :=
  update_statistics
    (accumulate_time delta_time (check_state_transition smoothed_state self)).

(** The configuration is never assigned after construction. *)
Definition same_config (a b : AttentionTracker) : Prop :=
  alert_threshold a = alert_threshold b
  /\ yaw_threshold a = yaw_threshold b
  /\ pitch_threshold a = pitch_threshold b
  /\ smoothing_window a = smoothing_window b
  /\ min_consecutive_frames a = min_consecutive_frames b.

(** The value [consecutive_count] takes in the branch
    [smoothed_state != self.current_state], before the confirmation test. *)
Definition pending_count (s : AttentionState) (self : AttentionTracker) : Z :=
  if state_eqb s (previous_state self) then consecutive_count self + 1 else 1.

(** The three frame counters add up. *)
Definition stats_ok (self : AttentionTracker) : Prop :=
  total_frames self = frames_looking self + frames_not_looking self
  /\ 0 <= frames_looking self /\ 0 <= frames_not_looking self.

(** Either nothing is pending, or a value other than the state is, and
    its count has not reached the confirmation threshold. *)
Definition count_ok (self : AttentionTracker) : Prop :=
  (previous_state self = current_state self /\ consecutive_count self = 0)
  \/ (previous_state self <> current_state self
      /\ 1 <= consecutive_count self < min_consecutive_frames self).

(** While the state is [looking] no time is accumulated and no alert is up. *)
Definition calm (self : AttentionTracker) : Prop :=
  current_state self = looking ->
  time_not_looking self = 0%Q /\ alert_active self = false.

(** The counter against the smoothed trace seen so far (latest call first):
    either nothing is pending and the trace does not end in a value other
    than the current state, or [consecutive_count] is the length of the run
    of [previous_state] that ends the trace. *)
Definition debounce_inv (self : AttentionTracker)
    (latest_first : list (PyError + AttentionState)) : Prop :=
  (previous_state self = current_state self
   /\ consecutive_count self = 0
   /\ forall s, s <> current_state self -> streak s latest_first = 0)
  \/ (previous_state self <> current_state self
      /\ 1 <= consecutive_count self < min_consecutive_frames self
      /\ streak (previous_state self) latest_first = consecutive_count self).

(** The object [AttentionTracker()] builds when the clock reads [now]. *)
Definition default_at (now : Q) : AttentionTracker :=
  mkTracker default_alert_threshold default_yaw_threshold
    default_pitch_threshold default_smoothing_window
    default_min_consecutive_frames
    looking looking (deque.make default_smoothing_window []) 0
    0%Q now false 0 0 0.

(** The state reached at the end of the scenario: not looking for five
    seconds, the alert raised. *)
Definition scenario_end : AttentionTracker :=
  feed (default_at 0) scenario_frames.

(** The object [AttentionTracker(smoothing_window=0)] builds at clock 0. *)
Definition windowless : AttentionTracker :=
  mkTracker default_alert_threshold default_yaw_threshold
    default_pitch_threshold 0 default_min_consecutive_frames
    looking looking (deque.make 0 []) 0 0%Q 0 false 0 0 0.

(** The object [AttentionTracker(min_consecutive_frames=0)] builds at
    clock 0. *)
Definition unconfirmed : AttentionTracker :=
  mkTracker default_alert_threshold default_yaw_threshold
    default_pitch_threshold default_smoothing_window 0
    looking looking (deque.make default_smoothing_window []) 0 0%Q 0 false
    0 0 0.

(** Two calls into the scenario: two smoothed [not_looking] pending. *)
Definition scenario_pending : AttentionTracker :=
  feed (default_at 0) (firstn 2 scenario_frames).

(** A field of each returned dictionary, [None] for a call that raised. *)
Definition returned {A : Type} (field : FrameResult.t -> A)
    (rs : list (PyError + FrameResult.t)) : list (option A) :=
  map (fun r => match r with
                | inr fr => Some (field fr)
                | inl _ => None
                end) rs.

(** Length of the window after each of the first calls of the scenario. *)
Definition window_lengths (self : AttentionTracker) (frames : list Frame)
  : list Z :=
  map (fun n => deque.len (state_buffer (feed self (firstn n frames))))
      (seq 1 (length frames)).

(** * The application around the tracker

    [src/main.py] and [src/ui_overlay.py], as far as they compute: the
    frame-rate counter of [AttentionMonitor], and the pulse of the alert and
    the geometry of the progress bar of [UIOverlay].  OpenCV is outside the
    model: a drawing function is the list of the [cv2] calls it makes, with
    their arguments, in order; the size of a rendered text and the
    formatting of a float with one decimal are parameters. *)

(** ** AttentionMonitor.calculate_fps *)

(** The attributes of [AttentionMonitor] the frame-rate counter uses. *)
Module AttentionMonitor.
Record t : Set := make {
  fps : Q;
  frame_count : Z;
  fps_start_time : Q
}.
End AttentionMonitor.

(** The three attributes as [AttentionMonitor.__init__] sets them. *)
Definition monitor_init (now : Q) : AttentionMonitor.t :=
  AttentionMonitor.make 0 0 now.

(** [calculate_fps()]; [now] is what [time.time()] reads if it is called,
    on every 30th frame.  The division raises when the clock has not
    moved. *)
Definition calculate_fps (now : Q) (self : AttentionMonitor.t)
  : AttentionMonitor.t * (PyError + unit) :=
  let self :=
    AttentionMonitor.make (AttentionMonitor.fps self)
      (AttentionMonitor.frame_count self + 1)
      (AttentionMonitor.fps_start_time self) in
  if 30 <=? AttentionMonitor.frame_count self then
    let end_time := now in
    if Qeq_bool (end_time - AttentionMonitor.fps_start_time self) 0
    then (self, inl ZeroDivisionError)
    else
      let fps :=
        (inject_Z (AttentionMonitor.frame_count self)
         / (end_time - AttentionMonitor.fps_start_time self))%Q in
      (AttentionMonitor.make fps 0 end_time, inr tt)
  else (self, inr tt).

(** [calculate_fps] once per clock reading, as the main loop calls it; the
    loop ends at the first exception. *)
Fixpoint count_frames (self : AttentionMonitor.t) (clock : list Q)
  : AttentionMonitor.t * option PyError :=
  match clock with
  | [] => (self, None)
  | now :: clock =>
      match calculate_fps now self with
      | (self, inl e) => (self, Some e)
      | (self, inr _) => count_frames self clock
      end
  end.

(** ** cv2, as a log of calls *)

Module cv2.

(** The arrays a drawing function holds: the caller's frame, the copy it
    takes and the blend [addWeighted] returns. *)
Inductive image : Set :=
| frame
| overlay
| blended.

Definition FONT_HERSHEY_SIMPLEX : Z := 0.

Inductive call : Set :=
| copy (src : image)
| rectangle (img : image) (pt1 pt2 : Z * Z) (color : Z * Z * Z)
    (thickness : Z)
| addWeighted (src1 : image) (alpha : Q) (src2 : image) (beta gamma : Q)
| putText (img : image) (text : String.string) (org : Z * Z) (fontFace : Z)
    (fontScale : Q) (color : Z * Z * Z) (thickness : Z).

End cv2.

(** [int(x)] of a float: truncation towards zero. *)
Definition py_int (x : Q) : Z := Z.quot (Qnum x) (Zpos (Qden x)).

(** [min(x, 1.0)]: the second argument when it is smaller. *)
Definition py_min (x y : Q) : Q := if Qlt_bool y x then y else x.

(** ** UIOverlay *)

Module UIOverlay.
Record t : Set := make {
  alert_message : String.string;
  alert_color : Z * Z * Z;
  alert_font_scale : Q;
  alert_thickness : Z;
  alert_alpha : Q;
  alert_pulse_direction : Z
}.
End UIOverlay.

(** [UIOverlay.__init__] *)
Definition overlay_init (alert_message : String.string)
    (alert_color : Z * Z * Z) (alert_font_scale : Q) (alert_thickness : Z)
  : UIOverlay.t :=
  UIOverlay.make alert_message alert_color alert_font_scale alert_thickness
    0 1.

(** "Pulsing animation": the two attributes it assigns. *)
Definition pulse (self : UIOverlay.t) : UIOverlay.t :=
  let alpha :=
    (UIOverlay.alert_alpha self
     + (5 # 100) * inject_Z (UIOverlay.alert_pulse_direction self))%Q in
  let set alpha direction :=
    UIOverlay.make (UIOverlay.alert_message self) (UIOverlay.alert_color self)
      (UIOverlay.alert_font_scale self) (UIOverlay.alert_thickness self)
      alpha direction in
  if Qle_bool 1 alpha then set 1%Q (-1)
  else if Qle_bool alpha (1 # 2) then set (1 # 2)%Q 1
  else set alpha (UIOverlay.alert_pulse_direction self).

(** [tuple(int(c * self.alert_alpha) for c in self.alert_color)] *)
Definition color_pulsed (self : UIOverlay.t) : Z * Z * Z :=
  let scale c := py_int (inject_Z c * UIOverlay.alert_alpha self) in
  match UIOverlay.alert_color self with
  | (b, g, r) => (scale b, scale g, scale r)
  end.

(** The steps of the progress bar, named as the source names them. *)
Definition bar_width : Z := 400.
Definition bar_height : Z := 20.

Definition bar_progress (time_not_looking threshold : Q) : Q :=
  py_min (time_not_looking / threshold) 1.

Definition bar_fill_width (time_not_looking threshold : Q) : Z :=
  py_int (inject_Z bar_width * bar_progress time_not_looking threshold).

Definition bar_color (progress : Q) : Z * Z * Z :=
  if Qlt_bool progress (1 # 2) then (0, 255, 0)
  else if Qlt_bool progress (8 # 10) then (0, 255, 255)
  else (0, 0, 255).

Section Drawing.

(** [cv2.getTextSize(text, font, scale, thickness)[0]] *)
Variable getTextSize : String.string -> Z -> Q -> Z -> Z * Z.

(** [f"{x:.1f}"] *)
Variable format_1f : Q -> String.string.

(** [draw_alert(frame, alert_active, time_not_looking)] on a frame of
    height [h] and width [w]: the object, the calls made and the array
    returned. *)
Definition draw_alert (self : UIOverlay.t) (h w : Z) (alert_active : bool)
    (time_not_looking : Q) : UIOverlay.t * list cv2.call * cv2.image :=
  if negb alert_active then
    (UIOverlay.make (UIOverlay.alert_message self)
       (UIOverlay.alert_color self) (UIOverlay.alert_font_scale self)
       (UIOverlay.alert_thickness self) 0
       (UIOverlay.alert_pulse_direction self),
     [], cv2.frame)
  else
    (* Semi-transparent background *)
    let rect_height := 120 in
    let rect_top := h / 2 - rect_height / 2 in
    let background :=
      [cv2.copy cv2.frame;
       cv2.rectangle cv2.overlay (0, rect_top) (w, rect_top + rect_height)
         (0, 0, 0) (-1);
       cv2.addWeighted cv2.overlay (7 # 10) cv2.frame (3 # 10) 0] in
    (* Pulsing animation *)
    let self := pulse self in
    (* Alert text *)
    let font := cv2.FONT_HERSHEY_SIMPLEX in
    let text_size :=
      getTextSize (UIOverlay.alert_message self) font
        (UIOverlay.alert_font_scale self) (UIOverlay.alert_thickness self) in
    let text_x := (w - fst text_size) / 2 in
    let text_y := h / 2 in
    let alert_text :=
      cv2.putText cv2.blended (UIOverlay.alert_message self) (text_x, text_y)
        font (UIOverlay.alert_font_scale self) (color_pulsed self)
        (UIOverlay.alert_thickness self) in
    (* Time counter *)
    let time_text :=
      String.append "Tiempo sin mirar: "%string
        (String.append (format_1f time_not_looking) "s"%string) in
    let time_size := getTextSize time_text font (8 # 10) 2 in
    let time_x := (w - fst time_size) / 2 in
    let time_y := text_y + 50 in
    (self,
     background
     ++ [alert_text;
         cv2.putText cv2.blended time_text (time_x, time_y) font (8 # 10)
           (255, 255, 255) 2],
     cv2.blended).

(** [draw_progress_bar(frame, time_not_looking, threshold)] on a frame of
    height [h] and width [w]: the calls made, all on the caller's frame,
    and the exception if the division raised. *)
Definition draw_progress_bar (h w : Z) (time_not_looking threshold : Q)
  : list cv2.call * option PyError :=
  let bar_x := (w - bar_width) / 2 in
  let bar_y := h - 50 in
  (* Background *)
  let background :=
    cv2.rectangle cv2.frame (bar_x, bar_y)
      (bar_x + bar_width, bar_y + bar_height) (100, 100, 100) (-1) in
  (* Progress *)
  if Qeq_bool threshold 0 then ([background], Some ZeroDivisionError)
  else
    let progress := bar_progress time_not_looking threshold in
    let fill_width := bar_fill_width time_not_looking threshold in
    (* Color *)
    let color := bar_color progress in
    let fill :=
      if 0 <? fill_width
      then [cv2.rectangle cv2.frame (bar_x, bar_y)
              (bar_x + fill_width, bar_y + bar_height) color (-1)]
      else [] in
    (* Border *)
    let border :=
      cv2.rectangle cv2.frame (bar_x, bar_y)
        (bar_x + bar_width, bar_y + bar_height) (255, 255, 255) 2 in
    (* Text *)
    let text :=
      String.append (format_1f time_not_looking)
        (String.append "s / "%string
           (String.append (format_1f threshold) "s"%string)) in
    let text_size := getTextSize text cv2.FONT_HERSHEY_SIMPLEX (5 # 10) 1 in
    let text_x := bar_x + (bar_width - fst text_size) / 2 in
    let text_y := bar_y - 10 in
    ([background] ++ fill
     ++ [border;
         cv2.putText cv2.frame text (text_x, text_y)
           cv2.FONT_HERSHEY_SIMPLEX (5 # 10) (255, 255, 255) 1],
     None).

End Drawing.

(** A filled rectangle of the log lies within the bar drawn for a frame of
    height [h] and width [w]. *)
Definition within_bar (h w : Z) (c : cv2.call) : Prop :=
  match c with
  | cv2.rectangle img (x1, y1) (x2, y2) _ thickness =>
      thickness = -1 ->
      img = cv2.frame
      /\ x1 = (w - bar_width) / 2 /\ y1 = h - 50
      /\ x1 < x2 <= x1 + bar_width /\ y2 = y1 + bar_height
  | _ => True
  end.

(** ** Observations on call sequences *)

(** The raw classification [update] computes for a frame. *)
Definition raw_of (self : AttentionTracker) (f : Frame) : AttentionState :=
  classify_attention self (frame_yaw f) (frame_pitch f).


(** The last [n] items of a list. *)
Definition lastn {A : Type} (n : nat) (l : list A) : list A :=
  skipn (length l - n) l.

(** Clock readings that never step back, the previous one being [last]. *)
Fixpoint clock_monotone (last : Q) (frames : list Frame) : Prop :=
  match frames with
  | [] => True
  | f :: frames =>
      (last <= frame_time f)%Q /\ clock_monotone (frame_time f) frames
  end.

(** An object as [__init__] and [reset] leave it, counters aside: fresh,
    with an empty buffer, no time accumulated and no alert. *)
Definition pristine (self : AttentionTracker) : Prop :=
  fresh self
  /\ deque.items (state_buffer self) = []
  /\ deque.maxlen (state_buffer self) = smoothing_window self
  /\ time_not_looking self = 0%Q
  /\ alert_active self = false.

(** No time is owed and a raised alert has its threshold reached. *)
Definition clock_inv (self : AttentionTracker) : Prop :=
  (0 <= time_not_looking self)%Q
  /\ (alert_active self = true ->
      (alert_threshold self <= time_not_looking self)%Q).

(** While not looking, a reached threshold has raised the alert. *)
Definition alert_due (self : AttentionTracker) : Prop :=
  current_state self = not_looking ->
  (alert_threshold self <= time_not_looking self)%Q ->
  alert_active self = true.

(** * Properties *)

(** ** Equality of states *)

Lemma state_eqb_eq (a b : AttentionState) : state_eqb a b = true <-> a = b.
Proof. destruct a, b; simpl; split; congruence. Qed.

Lemma state_eqb_neq (a b : AttentionState) : state_eqb a b = false <-> a <> b.
Proof. destruct a, b; simpl; split; congruence. Qed.

Lemma state_eqb_refl (a : AttentionState) : state_eqb a a = true.
Proof. now destruct a. Qed.

Lemma state_two_valued (a b c : AttentionState) : a <> b -> c <> b -> a = c.
Proof. destruct a, b, c; congruence. Qed.

Lemma Qlt_bool_iff (a b : Q) : Qlt_bool a b = true <-> (a < b)%Q.
Proof.
  unfold Qlt_bool. rewrite negb_true_iff.
  split; intro H.
  - apply Qnot_le_lt. intro Hle. apply Qle_bool_iff in Hle. congruence.
  - destruct (Qle_bool b a) eqn:E; [|reflexivity].
    apply Qle_bool_iff in E. exfalso. exact (Qlt_not_le _ _ H E).
Qed.

(** ** The bounded deque *)

Lemma deque_append_maxlen d x : deque.maxlen (deque.append d x) = deque.maxlen d.
Proof. reflexivity. Qed.

Lemma deque_append_len d x :
  deque.len (deque.append d x) =
  if deque.maxlen d <? deque.len d + 1 then deque.len d else deque.len d + 1.
Proof.
  unfold deque.append, deque.len. cbn [deque.items deque.maxlen].
  rewrite length_app. cbn [length].
  replace (Z.of_nat (length (deque.items d) + 1)) with
    (Z.of_nat (length (deque.items d)) + 1) by lia.
  destruct (deque.maxlen d <? Z.of_nat (length (deque.items d)) + 1).
  - destruct (deque.items d); cbn [app tl length]; [reflexivity|].
    rewrite length_app. cbn [length]. lia.
  - rewrite length_app. cbn [length]. lia.
Qed.

Lemma deque_append_bounded d x :
  0 <= deque.maxlen d -> deque.len d <= deque.maxlen d ->
  deque.len (deque.append d x) <= deque.maxlen d.
Proof.
  intros Hm Hl. rewrite deque_append_len.
  destruct (deque.maxlen d <? deque.len d + 1) eqn:E; [lia|].
  apply Z.ltb_ge in E. lia.
Qed.


Lemma deque_count_bounds d x : 0 <= deque.count d x <= deque.len d.
Proof.
  unfold deque.count, deque.len. split; [lia|].
  apply Nat2Z.inj_le, filter_length_le.
Qed.

(** ** Construction *)

Lemma init_inr now a y p w m self :
  __init__ now a y p w m = inr self ->
  0 <= w /\
  self = mkTracker a y p w m looking looking (deque.make w []) 0 0%Q now false 0 0 0.
Proof.
  unfold __init__, deque.new.
  destruct ((w <? - PY_SSIZE_T_MAX - 1) || (PY_SSIZE_T_MAX <? w));
    [discriminate|].
  destruct (w <? 0) eqn:E; [discriminate|].
  apply Z.ltb_ge in E. intros [= <-]. now split.
Qed.

Lemma deque_new_cases (n : Z) :
  (n < - PY_SSIZE_T_MAX - 1 \/ PY_SSIZE_T_MAX < n)
  /\ deque.new n = inl OverflowError
  \/ (- PY_SSIZE_T_MAX - 1 <= n < 0) /\ deque.new n = inl ValueError
  \/ (0 <= n <= PY_SSIZE_T_MAX) /\ deque.new n = inr (deque.make n []).
Proof.
  unfold deque.new.
  destruct (n <? - PY_SSIZE_T_MAX - 1) eqn:E1;
    [apply Z.ltb_lt in E1; left; split; [now left|reflexivity]|].
  destruct (PY_SSIZE_T_MAX <? n) eqn:E2;
    [apply Z.ltb_lt in E2; left; split; [now right|reflexivity]|].
  apply Z.ltb_ge in E1, E2. cbn [orb]. right.
  destruct (n <? 0) eqn:E3.
  - apply Z.ltb_lt in E3. left. split; [lia|reflexivity].
  - apply Z.ltb_ge in E3. right. split; [lia|reflexivity].
Qed.

(** ** One call of update, block by block *)

Lemma step_eq f self :
  step f self =
  match smoothed_of f self with
  | inl e => (with_frame f self, inl e)
  | inr (smoothed_state, confidence) =>
      let self' :=
        update_statistics
          (accumulate_time (frame_time f - last_update_time self)%Q
             (check_state_transition smoothed_state (with_frame f self))) in
      (self',
       inr (FrameResult.make (current_state self') (time_not_looking self')
              (alert_active self') confidence
              (classify_attention self (frame_yaw f) (frame_pitch f))))
  end.
Proof. reflexivity. Qed.

(** With a window of at least one frame the division is defined. *)
Lemma smoothed_of_defined f self :
  1 <= smoothing_window self ->
  exists s c, smoothed_of f self = inr (s, c).
Proof.
  intro Hw. unfold smoothed_of, smooth_over_buffer.
  set (t := with_frame f self).
  assert (Hsw : smoothing_window t = smoothing_window self) by reflexivity.
  rewrite Hsw.
  destruct (smoothing_window self <=? deque.len (state_buffer t)) eqn:E.
  - apply Z.leb_le in E.
    destruct (deque.len (state_buffer t) =? 0) eqn:E0.
    + apply Z.eqb_eq in E0. lia.
    + eauto.
  - eauto.
Qed.

Lemma smoothed_state_of_inr f self s :
  smoothed_state_of f self = inr s <-> exists c, smoothed_of f self = inr (s, c).
Proof.
  unfold smoothed_state_of. destruct (smoothed_of f self) as [e|[s' c]].
  - split; [discriminate|]. intros [c H]. discriminate.
  - split.
    + intros [= ->]. eauto.
    + intros [c' [= -> _]]. reflexivity.
Qed.

Lemma step_fst f self s c :
  smoothed_of f self = inr (s, c) ->
  fst (step f self) =
  after_smoothing (frame_time f - last_update_time self)%Q s (with_frame f self).
Proof. intro H. rewrite step_eq, H. reflexivity. Qed.

Lemma step_snd f self s c :
  smoothed_of f self = inr (s, c) ->
  snd (step f self) =
  let self' := fst (step f self) in
  inr (FrameResult.make (current_state self') (time_not_looking self')
         (alert_active self') c
         (classify_attention self (frame_yaw f) (frame_pitch f))).
Proof. intro H. rewrite step_eq, H. reflexivity. Qed.

Lemma step_raises f self e :
  smoothed_of f self = inl e ->
  step f self = (with_frame f self, inl e).
Proof. intro H. rewrite step_eq, H. reflexivity. Qed.

(** Case analysis over the branches of the three blocks. *)
Ltac blocks :=
  unfold after_smoothing, update_statistics, accumulate_time,
    check_state_transition;
  cbn [current_state previous_state consecutive_count min_consecutive_frames
       time_not_looking alert_active alert_threshold total_frames
       frames_looking frames_not_looking smoothing_window state_buffer
       last_update_time yaw_threshold pitch_threshold
       set_current_state set_previous_state set_consecutive_count
       set_time_not_looking set_alert_active set_total_frames
       set_frames_looking set_frames_not_looking set_state_buffer
       set_last_update_time negb];
  repeat match goal with
    | |- context [if ?b then _ else _] =>
        let E := fresh "E" in
        destruct b eqn:E;
        cbn [current_state previous_state consecutive_count
             min_consecutive_frames time_not_looking alert_active
             alert_threshold total_frames frames_looking frames_not_looking
             smoothing_window state_buffer last_update_time
             yaw_threshold pitch_threshold
             set_current_state set_previous_state set_consecutive_count
             set_time_not_looking set_alert_active set_total_frames
             set_frames_looking set_frames_not_looking set_state_buffer
             set_last_update_time negb] in *
    end.

Ltac eqb_facts :=
  repeat match goal with
    | H : negb _ = true |- _ => apply negb_true_iff in H
    | H : negb _ = false |- _ => apply negb_false_iff in H
    | H : state_eqb _ _ = true |- _ => apply state_eqb_eq in H
    | H : state_eqb _ _ = false |- _ => apply state_eqb_neq in H
    | H : (_ <=? _) = true |- _ => apply Z.leb_le in H
    | H : (_ <=? _) = false |- _ => apply Z.leb_gt in H
    | H : (_ =? _) = true |- _ => apply Z.eqb_eq in H
    | H : (_ =? _) = false |- _ => apply Z.eqb_neq in H
    end.

Lemma after_smoothing_config d s self :
  same_config (after_smoothing d s self) self.
Proof. blocks; repeat split. Qed.

Lemma step_config f self : same_config (fst (step f self)) self.
Proof.
  destruct (smoothed_of f self) as [e|[s c]] eqn:E.
  - rewrite (step_raises _ _ _ E). repeat split.
  - rewrite (step_fst _ _ _ _ E).
    destruct (after_smoothing_config (frame_time f - last_update_time self)%Q s
                (with_frame f self)) as (?&?&?&?&?).
    repeat split; assumption.
Qed.

Lemma reset_config now self : same_config (reset now self) self.
Proof. repeat split. Qed.

Lemma feed_config frames : forall self, same_config (feed self frames) self.
Proof.
  induction frames as [|f frames IH]; intro self; cbn [feed].
  - repeat split.
  - destruct (IH (fst (step f self))) as (?&?&?&?&?).
    destruct (step_config f self) as (?&?&?&?&?).
    repeat split; congruence.
Qed.

(** ** The debounce block *)

(** What "Check for state transition" leaves in the three debounce
    attributes, by the two outer branches and the confirmation test. *)
Lemma check_state_transition_same s self :
  s = current_state self ->
  let self' := check_state_transition s self in
  current_state self' = current_state self
  /\ previous_state self' = s
  /\ consecutive_count self' = 0
  /\ time_not_looking self' = time_not_looking self
  /\ alert_active self' = alert_active self.
Proof.
  intros ->. cbv zeta. unfold check_state_transition.
  rewrite state_eqb_refl. cbn. repeat split.
Qed.

Lemma check_state_transition_confirm s self :
  s <> current_state self ->
  min_consecutive_frames self <= pending_count s self ->
  let self' := check_state_transition s self in
  current_state self' = s
  /\ previous_state self' = s
  /\ consecutive_count self' = 0
  /\ (s = looking -> time_not_looking self' = 0%Q /\ alert_active self' = false)
  /\ (s = not_looking ->
      time_not_looking self' = time_not_looking self
      /\ alert_active self' = alert_active self).
Proof.
  intros Hs Hn. cbv zeta. unfold pending_count in Hn. revert Hn.
  unfold check_state_transition.
  apply state_eqb_neq in Hs. rewrite Hs. cbn [negb].
  destruct (state_eqb s (previous_state self)) eqn:Ep; intro Hn;
    cbn [min_consecutive_frames consecutive_count set_consecutive_count
         set_previous_state];
    (match goal with
     | |- context [?a <=? ?b] =>
         replace (a <=? b) with true by (symmetry; apply Z.leb_le; exact Hn)
     end);
    cbn; apply state_eqb_eq in Ep || apply state_eqb_neq in Ep;
    destruct s; cbn; repeat split; try congruence; intros [= ].
Qed.

Lemma check_state_transition_pending s self :
  s <> current_state self ->
  pending_count s self < min_consecutive_frames self ->
  let self' := check_state_transition s self in
  current_state self' = current_state self
  /\ previous_state self' = s
  /\ consecutive_count self' = pending_count s self
  /\ time_not_looking self' = time_not_looking self
  /\ alert_active self' = alert_active self.
Proof.
  intros Hs Hn. cbv zeta. unfold pending_count in *. revert Hn.
  unfold check_state_transition.
  apply state_eqb_neq in Hs. rewrite Hs. cbn [negb].
  destruct (state_eqb s (previous_state self)) eqn:Ep; intro Hn;
    cbn [min_consecutive_frames consecutive_count set_consecutive_count
         set_previous_state];
    (match goal with
     | |- context [?a <=? ?b] =>
         replace (a <=? b) with false by (symmetry; apply Z.leb_gt; exact Hn)
     end);
    cbn; repeat split.
  now apply state_eqb_eq in Ep.
Qed.

(** The later blocks and the frame push leave the debounce attributes alone. *)
Lemma after_smoothing_debounce d s self :
  let self' := after_smoothing d s self in
  current_state self' = current_state (check_state_transition s self)
  /\ previous_state self' = previous_state (check_state_transition s self)
  /\ consecutive_count self' = consecutive_count (check_state_transition s self).
Proof.
  cbv zeta. unfold after_smoothing.
  generalize (check_state_transition s self). intro t.
  unfold update_statistics, accumulate_time.
  destruct (state_eqb (current_state t) not_looking); cbn;
    repeat match goal with
      | |- context [if ?b then _ else _] => destruct b; cbn
      end; repeat split.
Qed.

(** The debounce attributes after a call that returned, from those before. *)
Lemma step_debounce f self s c :
  smoothed_of f self = inr (s, c) ->
  let self' := fst (step f self) in
  previous_state self' = s
  /\ (s = current_state self ->
      current_state self' = current_state self /\ consecutive_count self' = 0)
  /\ (s <> current_state self ->
      min_consecutive_frames self <= pending_count s self ->
      current_state self' = s /\ consecutive_count self' = 0)
  /\ (s <> current_state self ->
      pending_count s self < min_consecutive_frames self ->
      current_state self' = current_state self
      /\ consecutive_count self' = pending_count s self).
Proof.
  intro H. cbv zeta. rewrite (step_fst _ _ _ _ H).
  destruct (after_smoothing_debounce (frame_time f - last_update_time self)%Q s
              (with_frame f self)) as (-> & -> & ->).
  set (t := with_frame f self).
  assert (Hc : current_state t = current_state self) by reflexivity.
  assert (Hp : pending_count s t = pending_count s self) by reflexivity.
  assert (Hm : min_consecutive_frames t = min_consecutive_frames self)
    by reflexivity.
  rewrite <- Hc, <- Hp, <- Hm. clearbody t. clear H Hc Hp Hm.
  repeat split.
  - destruct (state_eqb s (current_state t)) eqn:E.
    + apply state_eqb_eq in E.
      now destruct (check_state_transition_same s t E) as (_ & ? & _).
    + apply state_eqb_neq in E.
      destruct (Z_le_gt_dec (min_consecutive_frames t) (pending_count s t)).
      * now destruct (check_state_transition_confirm s t E l) as (_ & ? & _).
      * assert (L : pending_count s t < min_consecutive_frames t) by lia.
        now destruct (check_state_transition_pending s t E L) as (_ & ? & _).
  - now destruct (check_state_transition_same s t H) as (? & _).
  - now destruct (check_state_transition_same s t H) as (_ & _ & ? & _).
  - now destruct (check_state_transition_confirm s t H H0) as (? & _).
  - now destruct (check_state_transition_confirm s t H H0) as (_ & _ & ? & _).
  - now destruct (check_state_transition_pending s t H H0) as (? & _).
  - now destruct (check_state_transition_pending s t H H0) as (_ & _ & ? & _).
Qed.

(** ** Invariants of reachable objects *)

Section Invariants.

Lemma with_frame_buffer_ok f self :
  0 <= smoothing_window self -> buffer_ok self -> buffer_ok (with_frame f self).
Proof.
  intros Hw [Hm Hl]. unfold buffer_ok, with_frame.
  cbn [state_buffer smoothing_window set_state_buffer set_last_update_time].
  rewrite deque_append_maxlen. split; [exact Hm|].
  rewrite <- Hm. apply deque_append_bounded; rewrite Hm; assumption.
Qed.

Lemma after_smoothing_buffer d s self :
  state_buffer (after_smoothing d s self) = state_buffer self.
Proof. blocks; reflexivity. Qed.

Lemma step_buffer f self :
  state_buffer (fst (step f self)) = state_buffer (with_frame f self).
Proof.
  destruct (smoothed_of f self) as [e|[s c]] eqn:E.
  - now rewrite (step_raises _ _ _ E).
  - rewrite (step_fst _ _ _ _ E). apply after_smoothing_buffer.
Qed.

Lemma step_buffer_ok f self :
  0 <= smoothing_window self -> buffer_ok self -> buffer_ok (fst (step f self)).
Proof.
  intros Hw Hb. pose proof (with_frame_buffer_ok f self Hw Hb) as [Hm Hl].
  destruct (step_config f self) as (_ & _ & _ & Hsw & _).
  unfold buffer_ok. rewrite step_buffer, Hsw. now split.
Qed.

Lemma after_smoothing_stats d s self :
  let self' := after_smoothing d s self in
  total_frames self' = total_frames self + 1
  /\ (current_state self' = looking
      /\ frames_looking self' = frames_looking self + 1
      /\ frames_not_looking self' = frames_not_looking self
      \/ current_state self' = not_looking
         /\ frames_looking self' = frames_looking self
         /\ frames_not_looking self' = frames_not_looking self + 1).
Proof.
  cbv zeta. unfold after_smoothing.
  set (t := accumulate_time d (check_state_transition s self)).
  assert (Ht : total_frames t = total_frames self
               /\ frames_looking t = frames_looking self
               /\ frames_not_looking t = frames_not_looking self).
  { subst t. blocks; repeat split. }
  destruct Ht as (<- & <- & <-). clearbody t.
  unfold update_statistics.
  cbn [current_state set_total_frames frames_looking frames_not_looking
       total_frames].
  destruct (state_eqb (current_state t) looking) eqn:E; cbn.
  - apply state_eqb_eq in E. split; [reflexivity|]. left. now repeat split.
  - apply state_eqb_neq in E. split; [reflexivity|]. right.
    repeat split. destruct (current_state t); congruence.
Qed.

Lemma step_stats_ok f self : stats_ok self -> stats_ok (fst (step f self)).
Proof.
  intros (Ht & Hl & Hn).
  destruct (smoothed_of f self) as [e|[s c]] eqn:E.
  - rewrite (step_raises _ _ _ E). now repeat split.
  - rewrite (step_fst _ _ _ _ E).
    destruct (after_smoothing_stats (frame_time f - last_update_time self)%Q s
                (with_frame f self)) as (H1 & [(_ & H2 & H3)|(_ & H2 & H3)]);
      unfold stats_ok; rewrite H1, H2, H3;
      change (total_frames (with_frame f self)) with (total_frames self);
      change (frames_looking (with_frame f self)) with (frames_looking self);
      change (frames_not_looking (with_frame f self))
        with (frames_not_looking self);
      lia.
Qed.

Lemma step_count_ok f self :
  1 <= min_consecutive_frames self -> count_ok self ->
  count_ok (fst (step f self)).
Proof.
  intros Hm Hc.
  destruct (step_config f self) as (_ & _ & _ & _ & Hmin).
  destruct (smoothed_of f self) as [e|[s c]] eqn:E.
  - rewrite (step_raises _ _ _ E). exact Hc.
  - destruct (step_debounce f self s c E) as (Hp & Hsame & Hconf & Hpend).
    unfold count_ok. rewrite Hmin, Hp.
    destruct (state_eqb s (current_state self)) eqn:Es.
    + apply state_eqb_eq in Es. destruct (Hsame Es) as [-> ->]. now left.
    + apply state_eqb_neq in Es.
      destruct (Z_le_gt_dec (min_consecutive_frames self) (pending_count s self))
        as [L|G].
      * destruct (Hconf Es L) as [-> ->]. now left.
      * assert (L : pending_count s self < min_consecutive_frames self) by lia.
        destruct (Hpend Es L) as [-> ->]. right. split; [exact Es|].
        split; [|exact L]. unfold pending_count.
        destruct (state_eqb s (previous_state self)); [|lia].
        destruct Hc as [[_ ->]|[_ ?]]; lia.
Qed.

Lemma step_calm f self : calm self -> calm (fst (step f self)).
Proof.
  intro Hc.
  destruct (smoothed_of f self) as [e|[s c]] eqn:E.
  - rewrite (step_raises _ _ _ E). exact Hc.
  - rewrite (step_fst _ _ _ _ E).
    set (t := with_frame f self).
    assert (Ht : calm t) by exact Hc. clearbody t. clear Hc E.
    unfold calm in *. revert Ht. blocks; eqb_facts; intros Ht Hl;
      try congruence; try (now split); try (apply Ht; congruence);
      try (destruct s, (current_state t); congruence).
Qed.

Lemma reachable_invariants self :
  reachable self ->
  0 <= smoothing_window self /\ buffer_ok self /\ stats_ok self /\ calm self
  /\ (1 <= min_consecutive_frames self -> count_ok self).
Proof.
  induction 1 as [now a y p w m self Hi | f self _ IH | now self _ IH].
  - apply init_inr in Hi. destruct Hi as [Hw ->].
    unfold buffer_ok, stats_ok, count_ok, calm, deque.len. cbn.
    repeat split; try lia. intros _. now left.
  - destruct IH as (Hw & Hb & Hs & Hq & Hc).
    destruct (step_config f self) as (_ & _ & _ & Hsw & Hmin).
    split; [rewrite Hsw; exact Hw|].
    split; [now apply step_buffer_ok|].
    split; [now apply step_stats_ok|].
    split; [now apply step_calm|].
    rewrite Hmin. intro Hm. apply step_count_ok; auto.
  - destruct IH as (Hw & [Hbm Hbl] & (Hs & Hl & Hn) & Hq & Hc).
    unfold buffer_ok, stats_ok, count_ok, calm, reset, deque.len. cbn.
    repeat split; try tauto; try lia; try (intros _; now left).
Qed.

End Invariants.

(** ** The debounce counter along a call sequence *)

Lemma streak_cons_same s h : streak s (inr s :: h) = 1 + streak s h.
Proof. cbn [streak]. now rewrite state_eqb_refl. Qed.

Lemma streak_cons_other s s' h : s <> s' -> streak s (inr s' :: h) = 0.
Proof. intro H. cbn [streak]. apply state_eqb_neq in H. now rewrite H. Qed.

Lemma streak_nonneg s h : 0 <= streak s h.
Proof.
  induction h as [|[e|s'] h IH]; cbn [streak]; try lia.
  destruct (state_eqb s s'); lia.
Qed.

Lemma fresh_debounce_inv self : fresh self -> debounce_inv self [].
Proof.
  intros (Hc & Hp & Hn). left.
  split; [congruence|]. split; [exact Hn|]. intros; reflexivity.
Qed.

Lemma step_debounce_inv f self h s c :
  1 <= min_consecutive_frames self ->
  debounce_inv self h ->
  smoothed_of f self = inr (s, c) ->
  debounce_inv (fst (step f self)) (inr s :: h)
  /\ (s <> current_state self ->
      (current_state (fst (step f self)) <> current_state self
       <-> streak s (inr s :: h) = min_consecutive_frames self)).
Proof.
  intros Hm Hinv E.
  destruct (step_config f self) as (_ & _ & _ & _ & Hmin).
  destruct (step_debounce f self s c E) as (Hp & Hsame & Hconf & Hpend).
  unfold debounce_inv. rewrite Hmin, Hp.
  destruct (state_eqb s (current_state self)) eqn:Es.
  - apply state_eqb_eq in Es. destruct (Hsame Es) as [Hc Hn].
    rewrite Hc, Hn. split; [|intro; contradiction].
    left. split; [exact Es|]. split; [reflexivity|].
    intros s' Hs'. apply streak_cons_other. congruence.
  - apply state_eqb_neq in Es. rewrite streak_cons_same.
    assert (Hrun : pending_count s self = 1 + streak s h).
    { unfold pending_count.
      destruct Hinv as [(Hpc & Hn & Hz)|(Hpc & Hn & Hrun)].
      - rewrite (Hz s Es).
        destruct (state_eqb s (previous_state self)) eqn:Ep; [|reflexivity].
        apply state_eqb_eq in Ep. congruence.
      - rewrite (state_two_valued s (current_state self) (previous_state self)
                   Es Hpc) in *.
        rewrite state_eqb_refl, Hrun. lia. }
    assert (Hbound : pending_count s self <= min_consecutive_frames self).
    { unfold pending_count.
      destruct Hinv as [(_ & -> & _)|(_ & Hn & _)];
        destruct (state_eqb s (previous_state self)); lia. }
    destruct (Z_le_gt_dec (min_consecutive_frames self) (pending_count s self))
      as [L|G].
    + destruct (Hconf Es L) as [Hc Hn]. rewrite Hc, Hn. split.
      * left. split; [reflexivity|]. split; [reflexivity|].
        intros s' Hs'. now apply streak_cons_other.
      * intros _. split; [intros _; lia|]. intros _. exact Es.
    + assert (L : pending_count s self < min_consecutive_frames self) by lia.
      destruct (Hpend Es L) as [Hc Hn]. rewrite Hc, Hn. split.
      * pose proof (streak_nonneg s h).
        right. split; [exact Es|]. split; lia.
      * intros _. split; [intro; contradiction|intro; exfalso; lia].
Qed.

Lemma feed_app self fs gs : feed self (fs ++ gs) = feed (feed self fs) gs.
Proof. revert self. induction fs as [|f fs IH]; intro self; cbn; auto. Qed.

Lemma smoothed_trace_app self fs gs :
  smoothed_trace self (fs ++ gs) =
  smoothed_trace self fs ++ smoothed_trace (feed self fs) gs.
Proof.
  revert self. induction fs as [|f fs IH]; intro self; cbn; [reflexivity|].
  now rewrite IH.
Qed.

Lemma results_app self fs gs :
  results self (fs ++ gs) = results self fs ++ results (feed self fs) gs.
Proof.
  revert self. induction fs as [|f fs IH]; intro self; cbn; [reflexivity|].
  now rewrite IH.
Qed.

Lemma feed_debounce_inv fs : forall self h,
  valid_config self -> debounce_inv self h ->
  debounce_inv (feed self fs) (rev (smoothed_trace self fs) ++ h).
Proof.
  induction fs as [|f fs IH]; intros self h Hv Hinv; cbn; [exact Hinv|].
  destruct Hv as [Hw Hm].
  destruct (smoothed_of_defined f self Hw) as (s & c & E).
  destruct (step_config f self) as (_ & _ & _ & Hsw & Hmin).
  rewrite <- app_assoc. cbn [app].
  apply IH.
  - unfold valid_config. now rewrite Hsw, Hmin.
  - replace (smoothed_state_of f self) with (@inr PyError _ s).
    + exact (proj1 (step_debounce_inv f self h s c Hm Hinv E)).
    + symmetry. apply smoothed_state_of_inr. eauto.
Qed.

(** The general rule: a call whose smoothed value differs from the state
    changes the state exactly when it is the confirming call of its run. *)
Lemma confirmation_on_the_last_of_the_run self0 fs f s :
  fresh self0 -> valid_config self0 ->
  smoothed_state_of f (feed self0 fs) = inr s ->
  s <> current_state (feed self0 fs) ->
  (current_state (feed self0 (fs ++ [f])) <> current_state (feed self0 fs)
   <-> consecutive s (smoothed_trace self0 (fs ++ [f]))
       = min_consecutive_frames self0).
Proof.
  intros Hf Hv Hs Hne.
  pose proof (feed_debounce_inv fs self0 [] Hv (fresh_debounce_inv _ Hf)) as Hinv.
  rewrite app_nil_r in Hinv.
  apply smoothed_state_of_inr in Hs as Hs'. destruct Hs' as [c E].
  destruct (feed_config fs self0) as (_ & _ & _ & _ & Hmin).
  assert (Hm : 1 <= min_consecutive_frames (feed self0 fs))
    by (rewrite Hmin; apply Hv).
  destruct (step_debounce_inv f _ _ s c Hm Hinv E) as [_ Hiff].
  rewrite feed_app. cbn [feed].
  unfold consecutive. rewrite smoothed_trace_app, rev_app_distr.
  cbn [smoothed_trace rev app]. rewrite Hs, <- Hmin.
  exact (Hiff Hne).
Qed.

(** ** Worked objects *)

Lemma default_tracker_eq now : default_tracker now = inr (default_at now).
Proof. reflexivity. Qed.

Lemma reachable_default now : reachable (default_at now).
Proof. eapply reachable_init. apply default_tracker_eq. Qed.

Lemma init_fresh now a y p w m self :
  __init__ now a y p w m = inr self -> fresh self.
Proof. intro H. apply init_inr in H. destruct H as [_ ->]. repeat split. Qed.

Lemma reset_fresh now self : fresh (reset now self).
Proof. repeat split. Qed.

Lemma reset_valid_config now self :
  valid_config self -> valid_config (reset now self).
Proof. intro H. exact H. Qed.

Lemma reachable_feed fs : forall self, reachable self -> reachable (feed self fs).
Proof.
  induction fs as [|f fs IH]; intros self H; cbn [feed]; [exact H|].
  apply IH. now apply reachable_update.
Qed.

(** ** classify_attention *)

(** C7.  [classify_attention] reads nothing but the two thresholds (any two
    objects that agree on them classify alike) and returns only a
    classification.  A missing yaw or a missing pitch gives [not_looking];
    a present pair gives [looking] exactly when [|yaw| < yaw_threshold] and
    [|pitch| < pitch_threshold], both strict, so that an angle whose
    absolute value equals its threshold gives [not_looking]: with the
    defaults, yaw 25 does. *)
Theorem classify_attention_contract :
  forall (self : AttentionTracker) (yaw pitch : Q),
    (forall p, classify_attention self None p = not_looking)
    /\ (forall y, classify_attention self y None = not_looking)
    /\ (classify_attention self (Some yaw) (Some pitch) = looking
        <-> (Qabs yaw < yaw_threshold self
             /\ Qabs pitch < pitch_threshold self)%Q)
    /\ ((Qabs yaw == yaw_threshold self)%Q ->
        classify_attention self (Some yaw) (Some pitch) = not_looking)
    /\ ((Qabs pitch == pitch_threshold self)%Q ->
        classify_attention self (Some yaw) (Some pitch) = not_looking)
    /\ (forall now,
          classify_attention (default_at now) (Some 25%Q) (Some pitch)
          = not_looking)
    /\ (forall other,
          yaw_threshold other = yaw_threshold self ->
          pitch_threshold other = pitch_threshold self ->
          forall y p,
            classify_attention other y p = classify_attention self y p).
Proof.
  intros self yaw pitch.
  assert (Hiff : classify_attention self (Some yaw) (Some pitch) = looking
                 <-> (Qabs yaw < yaw_threshold self
                      /\ Qabs pitch < pitch_threshold self)%Q).
  { cbn [classify_attention].
    rewrite <- !Qlt_bool_iff, <- andb_true_iff.
    destruct (Qlt_bool (Qabs yaw) (yaw_threshold self)
              && Qlt_bool (Qabs pitch) (pitch_threshold self));
      split; congruence. }
  assert (Hnot : forall a b, classify_attention self a b <> looking ->
                             classify_attention self a b = not_looking).
  { intros a b. destruct (classify_attention self a b); congruence. }
  split; [reflexivity|].
  split; [intros [y|]; reflexivity|].
  split; [exact Hiff|].
  split; [|split; [|split]].
  - intros Heq. apply Hnot. rewrite Hiff. intros [H _].
    rewrite Heq in H. exact (Qlt_irrefl _ H).
  - intros Heq. apply Hnot. rewrite Hiff. intros [_ H].
    rewrite Heq in H. exact (Qlt_irrefl _ H).
  - intros now. reflexivity.
  - intros other Hy Hp y p. unfold classify_attention. now rewrite Hy, Hp.
Qed.

(** ** Construction *)

(** C2, as the code has it.  [__init__] checks none of its arguments: it
    builds an object for every alert threshold and every confirmation
    count, and for every window size from 0 to the largest C [ssize_t]
    (2^63 - 1 on a 64-bit build).  The only refusals are those of
    [deque(maxlen=...)]: [ValueError] for a negative window size that fits
    a C [ssize_t], [OverflowError] for one that does not fit.  In particular
    every configuration with a positive alert threshold, a window from 1 to
    2^63 - 1 and a confirmation count of at least 1 is built, and the
    object built holds the arguments and the starting state. *)
Theorem init_checks_only_the_deque_length :
  forall (now a y p : Q) (w m : Z),
    ((exists self, __init__ now a y p w m = inr self)
     <-> 0 <= w <= PY_SSIZE_T_MAX)
    /\ (__init__ now a y p w m = inl ValueError
        <-> - PY_SSIZE_T_MAX - 1 <= w < 0)
    /\ (__init__ now a y p w m = inl OverflowError
        <-> w < - PY_SSIZE_T_MAX - 1 \/ PY_SSIZE_T_MAX < w)
    /\ __init__ now a y p w m <> inl ZeroDivisionError
    /\ (forall self, __init__ now a y p w m = inr self ->
          self = mkTracker a y p w m looking looking (deque.make w []) 0
                   0%Q now false 0 0 0)
    /\ ((0 < a)%Q -> 1 <= w <= PY_SSIZE_T_MAX -> 1 <= m ->
        exists self, __init__ now a y p w m = inr self
                     /\ valid_config self /\ fresh self
                     /\ get_statistics self
                        = Stats.make 0 0 0 1%Q looking 0%Q false).
Proof.
  intros now a y p w m. unfold __init__.
  destruct (deque_new_cases w) as [[Hw ->]|[[Hw ->]|[Hw ->]]];
    unfold PY_SSIZE_T_MAX in *.
  - split; [split; [intros [self H]; discriminate|lia]|].
    split; [split; [discriminate|lia]|].
    split; [split; [intros _; exact Hw|reflexivity]|].
    split; [discriminate|].
    split; [intros self H; discriminate|lia].
  - split; [split; [intros [self H]; discriminate|lia]|].
    split; [split; [intros _; exact Hw|reflexivity]|].
    split; [split; [discriminate|lia]|].
    split; [discriminate|].
    split; [intros self H; discriminate|lia].
  - split; [split; [intros _; exact Hw|eauto]|].
    split; [split; [discriminate|lia]|].
    split; [split; [discriminate|lia]|].
    split; [discriminate|].
    split; [intros self [= <-]; reflexivity|].
    intros _ [Hw1 _] Hm. eexists. split; [reflexivity|].
    repeat split; assumption.
Qed.

(** C2, counterexample.  A zero and a negative alert threshold, a window of
    size 0 and a confirmation count of 0 are all built into objects. *)
Lemma init_builds_invalid_configurations :
  (exists self, __init__ 0 0 25 20 5 3 = inr self
                /\ (alert_threshold self <= 0)%Q)
  /\ (exists self, __init__ 0 (-1) 25 20 5 3 = inr self
                   /\ (alert_threshold self < 0)%Q)
  /\ (exists self, __init__ 0 5 25 20 0 3 = inr self
                   /\ smoothing_window self < 1)
  /\ (exists self, __init__ 0 5 25 20 5 0 = inr self
                   /\ min_consecutive_frames self < 1).
Proof.
  repeat split; eexists; (split; [reflexivity|]); cbn;
    solve [lia | discriminate | reflexivity].
Qed.

(** What becomes of an object whose window size is 0: every call of
    [update] raises after the clock was stored, and counts no frame. *)
Lemma update_raises_on_empty_window self f :
  reachable self -> smoothing_window self = 0 ->
  step f self = (with_frame f self, inl ZeroDivisionError)
  /\ total_frames (fst (step f self)) = total_frames self.
Proof.
  intros Hr Hw.
  destruct (reachable_invariants self Hr) as (H0 & Hb & _).
  destruct (with_frame_buffer_ok f self H0 Hb) as [_ Hl].
  assert (Hlen : deque.len (state_buffer (with_frame f self)) = 0).
  { change (smoothing_window (with_frame f self)) with (smoothing_window self)
      in Hl. unfold deque.len in *. lia. }
  assert (E : smoothed_of f self = inl ZeroDivisionError).
  { unfold smoothed_of, smooth_over_buffer.
    change (smoothing_window (with_frame f self)) with (smoothing_window self).
    now rewrite Hw, Hlen. }
  rewrite (step_raises _ _ _ E). now split.
Qed.

(** ** reset and get_statistics *)

(** C1, as the code has it.  [reset] assigns the attributes of the "State"
    and "Time tracking" groups and none of the "Statistics" group: after it
    [get_statistics] reports state [looking], [time_not_looking = 0] and
    [alert_active = False], and the three frame counters and the attention
    ratio computed from them exactly as before the reset.  The configuration
    persists, the buffer is emptied, the pending value and the counter are
    cleared and the clock is stored again.  The snapshot is the one of
    construction when no frame has been counted. *)
Theorem reset_restores_state_and_keeps_counters :
  forall (now : Q) (self : AttentionTracker),
    get_statistics (reset now self)
    = Stats.make (total_frames self) (frames_looking self)
        (frames_not_looking self)
        (Stats.attention_ratio (get_statistics self))
        looking 0%Q false
    /\ same_config (reset now self) self
    /\ previous_state (reset now self) = looking
    /\ consecutive_count (reset now self) = 0
    /\ state_buffer (reset now self)
       = deque.make (deque.maxlen (state_buffer self)) []
    /\ last_update_time (reset now self) = now
    /\ (total_frames self = 0 ->
        frames_looking self = 0 -> frames_not_looking self = 0 ->
        get_statistics (reset now self)
        = Stats.make 0 0 0 1%Q looking 0%Q false).
Proof.
  intros now self. repeat split.
  intros Ht Hl Hn. unfold get_statistics, reset. cbn. now rewrite Ht, Hl, Hn.
Qed.

(** C1, counterexample.  After the seven face-less frames of the scenario, a
    reset leaves 7 frames counted, 2 of them looking, and a ratio of 2/7,
    where construction reports 0, 0, 0 and 1. *)
Lemma reset_keeps_seven_frames_counted :
  get_statistics (reset 7 scenario_end)
  = Stats.make 7 2 5 (2 # 7) looking 0%Q false
  /\ get_statistics (default_at 0) = Stats.make 0 0 0 1%Q looking 0%Q false
  /\ get_statistics (reset 7 scenario_end) <> get_statistics (default_at 0).
Proof.
  split; [vm_compute; reflexivity|].
  split; [vm_compute; reflexivity|].
  vm_compute. discriminate.
Qed.

(** ** What a call returns *)

(** The dictionary is read off the object as the call leaves it. *)
Lemma step_result f self fr :
  snd (step f self) = inr fr ->
  FrameResult.state fr = current_state (fst (step f self))
  /\ FrameResult.time_not_looking fr = time_not_looking (fst (step f self))
  /\ FrameResult.alert_active fr = alert_active (fst (step f self))
  /\ FrameResult.raw_state fr
     = classify_attention self (frame_yaw f) (frame_pitch f)
  /\ exists s, smoothed_of f self = inr (s, FrameResult.confidence fr).
Proof.
  destruct (smoothed_of f self) as [e|[s c]] eqn:E.
  - rewrite (step_raises _ _ _ E). discriminate.
  - rewrite (step_snd _ _ _ _ E). cbv zeta. intros [= <-]. cbn.
    repeat split. eauto.
Qed.

Lemma step_returns f self :
  1 <= smoothing_window self -> exists fr, snd (step f self) = inr fr.
Proof.
  intro Hw. destruct (smoothed_of_defined f self Hw) as (s & c & E).
  rewrite (step_snd _ _ _ _ E). eauto.
Qed.

(** ** Statistics *)

Lemma windowless_smoothed f self :
  reachable self -> smoothing_window self = 0 ->
  smoothed_of f self = inl ZeroDivisionError.
Proof.
  intros Hr Hw.
  destruct (update_raises_on_empty_window self f Hr Hw) as [Hstep _].
  destruct (smoothed_of f self) as [e|[s c]] eqn:E.
  - rewrite (step_raises _ _ _ E) in Hstep. now injection Hstep as ->.
  - pose proof (step_snd _ _ _ _ E) as H. rewrite Hstep in H. discriminate.
Qed.

Lemma step_returns_iff f self :
  reachable self ->
  (exists fr, snd (step f self) = inr fr) <-> 1 <= smoothing_window self.
Proof.
  intro Hr. split; [|apply step_returns].
  intros [fr Hfr].
  destruct (reachable_invariants self Hr) as (H0 & _).
  destruct (Z.eq_dec (smoothing_window self) 0) as [Hz|Hz]; [|lia].
  destruct (update_raises_on_empty_window self f Hr Hz) as [Hstep _].
  rewrite Hstep in Hfr. discriminate.
Qed.

(** C8, as the code has it.  On every object reached from construction by
    [update] and [reset] calls, [get_statistics] reports [total_frames =
    frames_looking + frames_not_looking] and an attention ratio of
    [frames_looking / total_frames], or [1.0] when no frame was counted.  A
    call of [update] that returns adds exactly one to [total_frames] and
    exactly one to the counter of the state it returns, leaving the other
    counter as it was.  The call returns exactly when the window is at least
    1; with a window of 0, which [__init__] builds, it raises
    [ZeroDivisionError] and leaves the three counters as they were. *)
Theorem statistics_count_each_frame_once :
  forall (self : AttentionTracker) (f : Frame),
    reachable self ->
    let stats := get_statistics self in
    let self' := fst (step f self) in
    Stats.total_frames stats
    = Stats.frames_looking stats + Stats.frames_not_looking stats
    /\ Stats.attention_ratio stats
       = (if Stats.total_frames stats =? 0 then 1%Q
          else (inject_Z (Stats.frames_looking stats)
                / inject_Z (Stats.total_frames stats))%Q)
    /\ (forall fr, snd (step f self) = inr fr ->
          total_frames self' = total_frames self + 1
          /\ FrameResult.state fr = current_state self'
          /\ (FrameResult.state fr = looking
              /\ frames_looking self' = frames_looking self + 1
              /\ frames_not_looking self' = frames_not_looking self
              \/ FrameResult.state fr = not_looking
                 /\ frames_looking self' = frames_looking self
                 /\ frames_not_looking self' = frames_not_looking self + 1))
    /\ ((exists fr, snd (step f self) = inr fr)
        <-> 1 <= smoothing_window self)
    /\ (smoothing_window self < 1 ->
        snd (step f self) = inl ZeroDivisionError
        /\ total_frames self' = total_frames self
        /\ frames_looking self' = frames_looking self
        /\ frames_not_looking self' = frames_not_looking self).
Proof.
  intros self f Hr. cbv zeta.
  destruct (reachable_invariants self Hr) as (H0 & _ & (Hs & _) & _).
  split; [exact Hs|]. split; [reflexivity|].
  split; [|split; [now apply step_returns_iff|]].
  - intros fr Hfr.
    destruct (step_result f self fr Hfr) as (Hst & _ & _ & _ & s & E).
    rewrite Hst, (step_fst _ _ _ _ E).
    destruct (after_smoothing_stats (frame_time f - last_update_time self)%Q s
                (with_frame f self)) as (Ht & Hc).
    split; [exact Ht|]. split; [reflexivity|]. exact Hc.
  - intro Hw. assert (Hz : smoothing_window self = 0) by lia.
    destruct (update_raises_on_empty_window self f Hr Hz) as [Hstep _].
    rewrite Hstep. cbn [fst snd]. repeat split.
Qed.

(** At the end of the scenario: 7 = 2 + 5 frames, ratio 2/7, and an eighth
    call counts one more frame. *)
Lemma statistics_count_each_frame_once_witness :
  Stats.total_frames (get_statistics scenario_end)
  = Stats.frames_looking (get_statistics scenario_end)
    + Stats.frames_not_looking (get_statistics scenario_end)
  /\ Stats.attention_ratio (get_statistics scenario_end) = (2 # 7)%Q
  /\ (exists fr, snd (step (absent_at 7) scenario_end) = inr fr)
  /\ (forall fr, snd (step (absent_at 7) scenario_end) = inr fr ->
      total_frames (fst (step (absent_at 7) scenario_end))
      = total_frames scenario_end + 1).
Proof.
  destruct (statistics_count_each_frame_once scenario_end (absent_at 7)
              (reachable_feed _ _ (reachable_default 0)))
    as (H1 & H2 & H3 & H4 & _).
  split; [exact H1|]. split; [vm_compute; reflexivity|].
  split; [apply H4; vm_compute; discriminate|].
  intros fr Hfr. exact (proj1 (H3 fr Hfr)).
Defined.

(** C8, counterexample.  [AttentionTracker(smoothing_window=0)] is built,
    and a call of [update] on it raises and counts no frame:
    [total_frames] is 0 before and after the call. *)
Lemma update_on_a_window_of_zero_counts_nothing :
  __init__ 0 default_alert_threshold default_yaw_threshold
    default_pitch_threshold 0 default_min_consecutive_frames = inr windowless
  /\ snd (step (absent_at 1) windowless) = inl ZeroDivisionError
  /\ total_frames windowless = 0
  /\ total_frames (fst (step (absent_at 1) windowless)) = 0
  /\ total_frames (fst (step (absent_at 1) windowless))
     <> total_frames windowless + 1.
Proof. repeat split; vm_compute; discriminate. Qed.

(** ** Smoothing *)



(** ** The alert *)

Lemma step_alert f self :
  current_state self = not_looking -> alert_active self = true ->
  let self' := fst (step f self) in
  (current_state self' = not_looking -> alert_active self' = true)
  /\ (current_state self' = looking ->
      alert_active self' = false /\ time_not_looking self' = 0%Q).
Proof.
  intros Hc Ha. cbv zeta.
  destruct (smoothed_of f self) as [e|[s c]] eqn:E.
  - rewrite (step_raises _ _ _ E). cbn [fst]. split; [intros _; exact Ha|].
    change (current_state (with_frame f self)) with (current_state self).
    intro H. congruence.
  - rewrite (step_fst _ _ _ _ E).
    set (t := with_frame f self).
    assert (Hc' : current_state t = not_looking) by exact Hc.
    assert (Ha' : alert_active t = true) by exact Ha.
    clearbody t. clear E Hc Ha. revert Hc' Ha'.
    blocks; eqb_facts; intros Hc' Ha'; split; intro H;
      try congruence; try (now split);
      try (destruct s; congruence).
Qed.

(** C4.  From any object that is [not_looking] with the alert raised, and
    along any sequence of [update] calls: as long as every call returns the
    state [not_looking], every call returns [alert_active = True] (and the
    object keeps both); and the next call, whichever it is, returns
    [alert_active = True] if its state is still [not_looking], and
    [alert_active = False] with [time_not_looking = 0.0] if its state is
    [looking], that is on the first call that transitions. *)
Theorem alert_is_latched_until_looking :
  forall (self : AttentionTracker) (fs : list Frame) (f : Frame),
    current_state self = not_looking -> alert_active self = true ->
    Forall (fun r => exists fr, r = inr fr
                                /\ FrameResult.state fr = not_looking)
           (results self fs) ->
    Forall (fun r => exists fr, r = inr fr
                                /\ FrameResult.alert_active fr = true)
           (results self fs)
    /\ current_state (feed self fs) = not_looking
    /\ alert_active (feed self fs) = true
    /\ forall fr, snd (step f (feed self fs)) = inr fr ->
         (FrameResult.state fr = not_looking ->
          FrameResult.alert_active fr = true)
         /\ (FrameResult.state fr = looking ->
             FrameResult.alert_active fr = false
             /\ FrameResult.time_not_looking fr = 0%Q).
Proof.
  intros self fs f. revert self.
  induction fs as [|g fs IH]; intros self Hc Ha Hall; cbn [results feed] in *.
  - split; [constructor|]. split; [exact Hc|]. split; [exact Ha|].
    intros fr Hfr.
    destruct (step_result f self fr Hfr) as (-> & -> & -> & _).
    destruct (step_alert f self Hc Ha) as [Hn Hl].
    split; [exact Hn|]. intro H. destruct (Hl H). now split.
  - inversion Hall as [|r rs (fr & Hfr & Hst) Hrest]; subst r rs.
    destruct (step_result g self fr Hfr) as (Hs' & _ & Ha' & _).
    rewrite Hs' in Hst.
    destruct (step_alert g self Hc Ha) as [Hn _].
    destruct (IH (fst (step g self)) Hst (Hn Hst) Hrest) as (H1 & H2).
    split; [|exact H2].
    constructor; [|exact H1].
    exists fr. split; [exact Hfr|]. rewrite Ha'. exact (Hn Hst).
Qed.

(** Two more face-less calls after the scenario keep the alert raised. *)
Lemma alert_is_latched_until_looking_witness :
  Forall (fun r => exists fr, r = inr fr /\ FrameResult.alert_active fr = true)
         (results scenario_end [absent_at 7; absent_at 8])
  /\ alert_active (feed scenario_end [absent_at 7; absent_at 8]) = true.
Proof.
  destruct (alert_is_latched_until_looking scenario_end
              [absent_at 7; absent_at 8] (absent_at 9))
    as (H1 & _ & H2 & _).
  - vm_compute. reflexivity.
  - vm_compute. reflexivity.
  - vm_compute. repeat constructor; eexists; (split; [reflexivity|]);
      reflexivity.
  - split; [exact H1|exact H2].
Defined.

(** ** Time accumulation *)

(** C5, as the code has it.  With a window of at least 1 every call of
    [update] returns.  The call stores the clock and, when the state it
    leaves is [not_looking], adds the difference to the previous clock
    value to [time_not_looking], whatever its sign: nothing clamps it.  A
    call that leaves the state [looking] sets [time_not_looking] to [0.0]
    if it transitions and leaves it untouched otherwise.  Hence, when the
    clock has not stepped back, [time_not_looking] is not decreased unless
    the call transitions to [looking]. *)
Theorem update_adds_the_clock_difference :
  forall (self : AttentionTracker) (f : Frame),
    1 <= smoothing_window self ->
    let delta_time := (frame_time f - last_update_time self)%Q in
    let self' := fst (step f self) in
    (exists fr, snd (step f self) = inr fr
                /\ FrameResult.time_not_looking fr = time_not_looking self'
                /\ FrameResult.state fr = current_state self')
    /\ last_update_time self' = frame_time f
    /\ (current_state self' = not_looking ->
        time_not_looking self' = (time_not_looking self + delta_time)%Q)
    /\ (current_state self' = looking -> current_state self = not_looking ->
        time_not_looking self' = 0%Q)
    /\ (current_state self' = looking -> current_state self = looking ->
        time_not_looking self' = time_not_looking self)
    /\ ((0 <= delta_time)%Q ->
        ~ (current_state self = not_looking /\ current_state self' = looking) ->
        (time_not_looking self <= time_not_looking self')%Q).
Proof.
  intros self f Hw. cbv zeta.
  destruct (step_returns f self Hw) as [fr Hfr].
  destruct (step_result f self fr Hfr) as (Hst & Htm & _ & _ & s & E).
  split; [exists fr; auto|].
  rewrite (step_fst _ _ _ _ E).
  generalize (frame_time f - last_update_time self)%Q. intro d.
  assert (Hlu : forall t, last_update_time (after_smoothing d s t)
                          = last_update_time t).
  { intro t. blocks; reflexivity. }
  split; [rewrite Hlu; reflexivity|].
  set (t := with_frame f self).
  change (current_state self) with (current_state t).
  change (time_not_looking self) with (time_not_looking t).
  clearbody t. clear.
  assert (Hgrow : (0 <= d -> time_not_looking t <= time_not_looking t + d)%Q).
  { intro Hd. rewrite <- (Qplus_0_r (time_not_looking t)) at 1.
    apply Qplus_le_compat; [apply Qle_refl|exact Hd]. }
  blocks; eqb_facts;
    (split; [|split; [|split]]); try intros H1 H2; try intros H1;
    try congruence; try reflexivity; try (apply Hgrow; assumption);
    try apply Qle_refl;
    try (exfalso; apply H2; split; congruence);
    try (destruct s, (current_state t); congruence);
    try (exfalso; apply H2; split;
         [destruct (current_state t); congruence|congruence]).
Qed.

(** An eighth call, two seconds after the seventh, adds two seconds. *)
Lemma update_adds_the_clock_difference_witness :
  time_not_looking (fst (step (absent_at 8) scenario_end))
  = (time_not_looking scenario_end
     + (frame_time (absent_at 8) - last_update_time scenario_end))%Q.
Proof.
  destruct (update_adds_the_clock_difference scenario_end (absent_at 8))
    as (_ & _ & H & _).
  - vm_compute. discriminate.
  - apply H. vm_compute. reflexivity.
Defined.

(** C5, counterexample.  At the end of the scenario the clock was stored at
    6 s and [time_not_looking] is 5 s.  A call that reads the clock at 4 s
    leaves the state [not_looking] and [time_not_looking] at 3 s; a call
    that reads it at 0 s leaves [time_not_looking] at -1 s. *)
Lemma clock_step_back_decreases_time_not_looking :
  reachable scenario_end
  /\ current_state scenario_end = not_looking
  /\ last_update_time scenario_end = 6%Q
  /\ time_not_looking scenario_end = 5%Q
  /\ current_state (fst (step (absent_at 4) scenario_end)) = not_looking
  /\ time_not_looking (fst (step (absent_at 4) scenario_end)) = 3%Q
  /\ (time_not_looking (fst (step (absent_at 4) scenario_end))
      < time_not_looking scenario_end)%Q
  /\ (time_not_looking (fst (step (absent_at 0) scenario_end)) < 0)%Q.
Proof.
  split; [apply reachable_feed, reachable_default|].
  repeat split; vm_compute; reflexivity.
Qed.

(** ** The end-to-end scenario *)

(** C9, as the code has it.  Default configuration, built at any clock
    value, then [update(None, None)] with the clock at 0, 1, ..., 6 s.
    Every raw classification is [not_looking].  The smoothed value is
    [not_looking] from the first call on: until the window is full it is the
    raw classification.  The window holds 1, 2, 3, 4 frames after the first
    four calls and is full, at 5, from call 5 on.  The state is [looking]
    after calls 1 and 2 and transitions to [not_looking] at call 3, the
    third consecutive smoothed [not_looking] counted from the first call,
    and stays.  [time_not_looking] is 0, 0, 1, 2, 3, 4, 5 s and the alert
    is raised by call 7, when it reaches the threshold of 5 s. *)
Theorem scenario_confirms_at_the_third_call :
  forall now : Q,
    let self := default_at now in
    default_tracker now = inr self
    /\ returned FrameResult.raw_state (results self scenario_frames)
       = repeat (Some not_looking) 7
    /\ smoothed_trace self scenario_frames = repeat (inr not_looking) 7
    /\ window_lengths self scenario_frames = [1; 2; 3; 4; 5; 5; 5]
    /\ returned FrameResult.state (results self scenario_frames)
       = [Some looking; Some looking; Some not_looking; Some not_looking;
          Some not_looking; Some not_looking; Some not_looking]
    /\ returned FrameResult.time_not_looking (results self scenario_frames)
       = [Some 0%Q; Some 0%Q; Some 1%Q; Some 2%Q; Some 3%Q; Some 4%Q;
          Some 5%Q]
    /\ returned FrameResult.alert_active (results self scenario_frames)
       = [Some false; Some false; Some false; Some false; Some false;
          Some false; Some true].
Proof.
  intro now. cbv zeta. repeat split; vm_compute; reflexivity.
Qed.

(** C9, counterexample.  The scenario has seven calls.  The first call
    already has the smoothed value [not_looking], with one frame in a window
    of five, and the third call returns the state [not_looking], with three
    frames in the window. *)
Lemma scenario_transition_precedes_window_fill :
  length scenario_frames = 7%nat
  /\ smoothed_trace (default_at 0) (firstn 1 scenario_frames)
     = [inr not_looking]
  /\ window_lengths (default_at 0) (firstn 3 scenario_frames) = [1; 2; 3]
  /\ smoothing_window (default_at 0) = 5
  /\ returned FrameResult.state
       (results (default_at 0) (firstn 3 scenario_frames))
     = [Some looking; Some looking; Some not_looking].
Proof. repeat split; vm_compute; reflexivity. Qed.

(** ** The debounce counter *)

(** With a confirmation count of 1 or less every differing call confirms at
    once, and the counter rests at 0. *)
Lemma reachable_count_zero self :
  reachable self -> min_consecutive_frames self <= 1 ->
  consecutive_count self = 0.
Proof.
  induction 1 as [now a y p w m self Hi | f self _ IH | now self _ IH];
    intro Hm.
  - apply init_inr in Hi. destruct Hi as [_ ->]. reflexivity.
  - destruct (step_config f self) as (_ & _ & _ & _ & Hmin).
    rewrite Hmin in Hm. specialize (IH Hm).
    destruct (smoothed_of f self) as [e|[s c]] eqn:E.
    + rewrite (step_raises _ _ _ E). exact IH.
    + destruct (step_debounce f self s c E) as (_ & Hsame & Hconf & _).
      destruct (state_eqb s (current_state self)) eqn:Es.
      * apply state_eqb_eq in Es. now destruct (Hsame Es).
      * apply state_eqb_neq in Es.
        assert (Hp : min_consecutive_frames self <= pending_count s self).
        { unfold pending_count.
          destruct (state_eqb s (previous_state self)); lia. }
        now destruct (Hconf Es Hp).
  - reflexivity.
Qed.

(** C10, as the code has it.  On every object reached from construction by
    [update] and [reset] calls the counter is never negative.  With a
    confirmation count of at least 1, [0 <= consecutive_count <
    min_consecutive_frames] holds after construction, after [reset] and
    after every [update]; with a confirmation count of 0 or less, which
    [__init__] builds, the counter is always 0 and so never below the
    confirmation count.  The reasons: a call whose smoothed value is the
    current state leaves the counter at 0; a call whose pending count
    reaches [min_consecutive_frames] confirms the transition and leaves the
    counter at 0; so does every call that changes the state. *)
Theorem consecutive_count_stays_below_confirmation :
  forall (self : AttentionTracker) (f : Frame),
    reachable self ->
    0 <= consecutive_count self
    /\ (1 <= min_consecutive_frames self ->
        consecutive_count self < min_consecutive_frames self
        /\ 0 <= consecutive_count (fst (step f self))
                < min_consecutive_frames self
        /\ (forall now, 0 <= consecutive_count (reset now self)
                             < min_consecutive_frames self))
    /\ (min_consecutive_frames self <= 0 ->
        consecutive_count self = 0
        /\ consecutive_count (fst (step f self)) = 0
        /\ (forall now, consecutive_count (reset now self) = 0))
    /\ (forall s, smoothed_state_of f self = inr s ->
          s = current_state self ->
          consecutive_count (fst (step f self)) = 0)
    /\ (forall s, smoothed_state_of f self = inr s ->
          s <> current_state self ->
          min_consecutive_frames self <= pending_count s self ->
          current_state (fst (step f self)) = s
          /\ consecutive_count (fst (step f self)) = 0)
    /\ (current_state (fst (step f self)) <> current_state self ->
        consecutive_count (fst (step f self)) = 0).
Proof.
  intros self f Hr.
  assert (Hbound : forall t, reachable t ->
            min_consecutive_frames t = min_consecutive_frames self ->
            1 <= min_consecutive_frames self ->
            0 <= consecutive_count t < min_consecutive_frames self).
  { intros t Ht Hmin Hm.
    destruct (reachable_invariants t Ht) as (_ & _ & _ & _ & Hc).
    rewrite <- Hmin in *. destruct (Hc Hm) as [[_ ->]|[_ ?]]; lia. }
  assert (Hzero : forall t, reachable t ->
            min_consecutive_frames t = min_consecutive_frames self ->
            min_consecutive_frames self <= 0 -> consecutive_count t = 0).
  { intros t Ht Hmin Hm. apply reachable_count_zero; [exact Ht|lia]. }
  split.
  { destruct (Z_le_gt_dec 1 (min_consecutive_frames self)) as [Hm|Hm].
    - now apply Hbound.
    - rewrite (Hzero self Hr eq_refl); lia. }
  split.
  { intro Hm. split; [now apply Hbound|].
    split; [apply Hbound; [now apply reachable_update|apply step_config
                          |exact Hm]|].
    intro now. apply Hbound; [now apply reachable_reset|reflexivity|exact Hm]. }
  split.
  { intro Hm. split; [now apply Hzero|].
    split; [apply Hzero; [now apply reachable_update|apply step_config
                         |exact Hm]|].
    intro now. reflexivity. }
  split; [|split].
  - intros s Hs Heq. apply smoothed_state_of_inr in Hs. destruct Hs as [c E].
    now destruct (step_debounce f self s c E) as (_ & H & _); destruct (H Heq).
  - intros s Hs Hne Hp. apply smoothed_state_of_inr in Hs. destruct Hs as [c E].
    destruct (step_debounce f self s c E) as (_ & _ & H & _). now apply H.
  - intro Hch.
    destruct (smoothed_of f self) as [e|[s c]] eqn:E.
    + rewrite (step_raises _ _ _ E) in Hch. now contradiction Hch.
    + destruct (step_debounce f self s c E) as (_ & Hsame & Hconf & Hpend).
      destruct (state_eqb s (current_state self)) eqn:Es.
      * apply state_eqb_eq in Es. destruct (Hsame Es). contradiction.
      * apply state_eqb_neq in Es.
        destruct (Z_le_gt_dec (min_consecutive_frames self)
                    (pending_count s self)) as [L|G].
        -- now destruct (Hconf Es L).
        -- assert (L : pending_count s self < min_consecutive_frames self)
             by lia.
           destruct (Hpend Es L). contradiction.
Qed.

(** Two calls into the scenario the counter is below 3; the third call,
    if it changes the state, clears it. *)
Lemma consecutive_count_stays_below_confirmation_witness :
  0 <= consecutive_count scenario_pending
  /\ consecutive_count scenario_pending
     < min_consecutive_frames scenario_pending
  /\ (current_state (fst (step (absent_at 2) scenario_pending))
      <> current_state scenario_pending ->
      consecutive_count (fst (step (absent_at 2) scenario_pending)) = 0).
Proof.
  destruct (consecutive_count_stays_below_confirmation
              scenario_pending (absent_at 2)
              (reachable_feed _ _ (reachable_default 0)))
    as (H0 & H1 & _ & _ & _ & H2).
  split; [exact H0|]. split; [|exact H2].
  apply H1. vm_compute. discriminate.
Defined.

(** C10, counterexample.  [AttentionTracker(min_consecutive_frames=0)] is
    built with the counter at 0, which is not below the confirmation count
    of 0; the same after a call of [update] and after [reset]. *)
Lemma counter_is_not_below_a_confirmation_count_of_zero :
  __init__ 0 default_alert_threshold default_yaw_threshold
    default_pitch_threshold default_smoothing_window 0 = inr unconfirmed
  /\ ~ (0 <= consecutive_count unconfirmed
            < min_consecutive_frames unconfirmed)
  /\ ~ (0 <= consecutive_count (fst (step (absent_at 1) unconfirmed))
            < min_consecutive_frames (fst (step (absent_at 1) unconfirmed)))
  /\ ~ (0 <= consecutive_count (reset 1 unconfirmed)
            < min_consecutive_frames (reset 1 unconfirmed)).
Proof.
  split; [reflexivity|].
  repeat split; vm_compute; intros [_ H]; discriminate.
Qed.

(** ** Hysteresis *)

(** The debounce attributes after a call, computed from those before. *)
Lemma step_fields f self s cur prev n m :
  smoothed_state_of f self = inr s ->
  current_state self = cur -> previous_state self = prev ->
  consecutive_count self = n -> min_consecutive_frames self = m ->
  let pending := if state_eqb s prev then n + 1 else 1 in
  let self' := fst (step f self) in
  min_consecutive_frames self' = m
  /\ previous_state self' = s
  /\ current_state self'
     = (if state_eqb s cur then cur else if m <=? pending then s else cur)
  /\ consecutive_count self'
     = (if state_eqb s cur then 0 else if m <=? pending then 0 else pending).
Proof.
  intros Hs <- <- <- <-. cbv zeta.
  apply smoothed_state_of_inr in Hs. destruct Hs as [c E].
  destruct (step_config f self) as (_ & _ & _ & _ & Hmin).
  destruct (step_debounce f self s c E) as (Hp & Hsame & Hconf & Hpend).
  split; [exact Hmin|]. split; [exact Hp|].
  fold (pending_count s self).
  destruct (state_eqb s (current_state self)) eqn:Es.
  - apply state_eqb_eq in Es. exact (Hsame Es).
  - apply state_eqb_neq in Es.
    destruct (min_consecutive_frames self <=? pending_count s self) eqn:El.
    + apply Z.leb_le in El. exact (Hconf Es El).
    + apply Z.leb_gt in El. exact (Hpend Es El).
Qed.

Section AfterSomeCalls.

Variable self0 : AttentionTracker.
Variable fs : list Frame.
Hypothesis Hfresh : fresh self0.
Hypothesis Hvalid : valid_config self0.

Let self := feed self0 fs.

(** When the trace so far does not end in [s], different from the state,
    nothing is pending. *)
Lemma nothing_pending s :
  s <> current_state self ->
  consecutive s (smoothed_trace self0 fs) = 0 ->
  previous_state self = current_state self /\ consecutive_count self = 0.
Proof.
  intros Hne Hz. unfold consecutive in Hz.
  pose proof (feed_debounce_inv fs self0 [] Hvalid
                (fresh_debounce_inv _ Hfresh)) as Hinv.
  rewrite app_nil_r in Hinv. fold self in Hinv.
  destruct Hinv as [(Hp & Hn & _)|(Hp & Hn & Hrun)]; [now split|].
  rewrite (state_two_valued _ _ _ Hp Hne) in Hrun. lia.
Qed.

(** With a confirmation count of 3: two smoothed [not_looking] frames, not
    preceded by another, then a smoothed [looking] frame. *)
Lemma two_frames_do_not_confirm f1 f2 f3 :
  min_consecutive_frames self0 = 3 ->
  consecutive not_looking (smoothed_trace self0 fs) = 0 ->
  smoothed_trace self [f1; f2; f3]
  = [inr not_looking; inr not_looking; inr looking] ->
  current_state (feed self [f1]) = current_state self
  /\ current_state (feed self [f1; f2]) = current_state self
  /\ current_state (feed self [f1; f2; f3]) = current_state self.
Proof.
  intros Hm3 Hz Htrace.
  cbn [smoothed_trace] in Htrace. injection Htrace as S1 S2 S3.
  cbn [feed].
  assert (Hm : min_consecutive_frames self = 3).
  { destruct (feed_config fs self0) as (_ & _ & _ & _ & H).
    fold self in H. congruence. }
  destruct (current_state self) eqn:Hcur.
  - destruct (nothing_pending not_looking) as [Hp Hn];
      [rewrite Hcur; discriminate|exact Hz|].
    rewrite Hcur in Hp.
    destruct (step_fields f1 self _ _ _ _ _ S1 Hcur Hp Hn Hm)
      as (M1 & P1 & C1 & N1).
    cbn in C1, N1.
    destruct (step_fields f2 _ _ _ _ _ _ S2 C1 P1 N1 M1)
      as (M2 & P2 & C2 & N2).
    cbn in C2, N2.
    destruct (step_fields f3 _ _ _ _ _ _ S3 C2 P2 N2 M2) as (_ & _ & C3 & _).
    cbn in C3. auto.
  - destruct (step_fields f1 self _ _ _ _ _ S1 Hcur eq_refl eq_refl Hm)
      as (M1 & P1 & C1 & N1).
    cbn in C1, N1.
    destruct (step_fields f2 _ _ _ _ _ _ S2 C1 P1 N1 M1)
      as (M2 & P2 & C2 & N2).
    cbn in C2, N2.
    destruct (step_fields f3 _ _ _ _ _ _ S3 C2 P2 N2 M2) as (_ & _ & C3 & _).
    cbn in C3. auto.
Qed.

(** With a confirmation count of at least 2: one smoothed frame that
    differs from the state, not preceded by another, then a smoothed frame
    that agrees with it. *)
Lemma isolated_flip_is_ignored f1 f2 s :
  2 <= min_consecutive_frames self0 ->
  s <> current_state self ->
  consecutive s (smoothed_trace self0 fs) = 0 ->
  smoothed_trace self [f1; f2] = [inr s; inr (current_state self)] ->
  current_state (feed self [f1]) = current_state self
  /\ current_state (feed self [f1; f2]) = current_state self.
Proof.
  intros Hm2 Hne Hz Htrace.
  cbn [smoothed_trace] in Htrace. injection Htrace as S1 S2.
  cbn [feed].
  assert (Hm : min_consecutive_frames self = min_consecutive_frames self0).
  { destruct (feed_config fs self0) as (_ & _ & _ & _ & H). exact H. }
  destruct (nothing_pending s Hne Hz) as [Hp Hn].
  destruct (step_fields f1 self _ _ _ _ _ S1 eq_refl Hp Hn Hm)
    as (M1 & P1 & C1 & N1).
  apply state_eqb_neq in Hne. rewrite Hne in C1, N1.
  replace (min_consecutive_frames self0 <=? 1) with false in C1, N1
    by (symmetry; apply Z.leb_gt; lia).
  destruct (step_fields f2 _ _ _ _ _ _ S2 C1 P1 N1 M1) as (_ & _ & C2 & _).
  rewrite state_eqb_refl in C2. auto.
Qed.

End AfterSomeCalls.

(** Every reachable object is a fresh one, built or reset, followed by
    [update] calls only. *)
Lemma reachable_from_fresh self :
  reachable self ->
  exists start calls,
    reachable start /\ fresh start /\ self = feed start calls.
Proof.
  induction 1 as [now a y p w m self Hi | f self _ IH | now self Hr _].
  - exists self, []. split; [eapply reachable_init; eassumption|].
    split; [eapply init_fresh; eassumption|reflexivity].
  - destruct IH as (start & calls & Hr & Hf & ->).
    exists start, (calls ++ [f]). split; [exact Hr|]. split; [exact Hf|].
    now rewrite feed_app.
  - exists (reset now self), []. split; [now apply reachable_reset|].
    split; [apply reset_fresh|reflexivity].
Qed.

Lemma windowless_smoothed_state f self s :
  reachable self -> smoothing_window self = 0 ->
  smoothed_state_of f self = inr s -> False.
Proof.
  intros Hr Hw Hs. apply smoothed_state_of_inr in Hs. destruct Hs as [c E].
  rewrite (windowless_smoothed f self Hr Hw) in E. discriminate.
Qed.

(** C3, as the code has it.  Every reachable object is an object just built
    or just reset followed by a sequence of [update] calls; take such a
    start and such a sequence.  With a confirmation count of at least 1, a
    call whose smoothed value [s] differs from the current state changes
    the state exactly when the run of calls with smoothed value [s] that it
    ends has length [min_consecutive_frames]: it is the confirming call of
    its run, and no other call changes the state.  In particular, with a
    confirmation count of 3, two consecutive smoothed [not_looking] frames
    followed by a smoothed [looking] frame leave the state what it was after
    each of the three calls, and one isolated smoothed frame that differs
    from the state, followed by one that agrees, leaves it unchanged too.
    A call whose smoothed value is the current state never changes it.
    With a confirmation count of 0 or less, which [__init__] builds, every
    call whose smoothed value differs from the state changes it at once. *)
Theorem state_changes_only_on_the_confirming_call :
  forall (self0 : AttentionTracker) (fs : list Frame),
    reachable self0 -> fresh self0 ->
    let self := feed self0 fs in
    (1 <= min_consecutive_frames self0 ->
     (forall f s,
         smoothed_state_of f self = inr s -> s <> current_state self ->
         (current_state (feed self0 (fs ++ [f])) <> current_state self
          <-> consecutive s (smoothed_trace self0 (fs ++ [f]))
              = min_consecutive_frames self0))
     /\ (min_consecutive_frames self0 = 3 ->
         (forall f1 f2 f3,
             consecutive not_looking (smoothed_trace self0 fs) = 0 ->
             smoothed_trace self [f1; f2; f3]
             = [inr not_looking; inr not_looking; inr looking] ->
             current_state (feed self [f1]) = current_state self
             /\ current_state (feed self [f1; f2]) = current_state self
             /\ current_state (feed self [f1; f2; f3]) = current_state self)
         /\ (forall f1 f2 s,
               s <> current_state self ->
               consecutive s (smoothed_trace self0 fs) = 0 ->
               smoothed_trace self [f1; f2]
               = [inr s; inr (current_state self)] ->
               current_state (feed self [f1]) = current_state self
               /\ current_state (feed self [f1; f2]) = current_state self)))
    /\ (forall f s,
          smoothed_state_of f self = inr s -> s = current_state self ->
          current_state (feed self0 (fs ++ [f])) = current_state self)
    /\ (min_consecutive_frames self0 <= 0 ->
        forall f s,
          smoothed_state_of f self = inr s -> s <> current_state self ->
          current_state (feed self0 (fs ++ [f])) = s)
    /\ (forall t, reachable t ->
          exists start calls,
            reachable start /\ fresh start /\ t = feed start calls).
Proof.
  intros self0 fs Hr0 Hf. cbv zeta.
  assert (Hr : reachable (feed self0 fs)) by now apply reachable_feed.
  destruct (feed_config fs self0) as (_ & _ & _ & Hsw & Hmin).
  destruct (reachable_invariants self0 Hr0) as (H0 & _).
  assert (Hwin : forall f s,
             smoothed_state_of f (feed self0 fs) = inr s ->
             1 <= smoothing_window self0).
  { intros f s Hs.
    destruct (Z.eq_dec (smoothing_window self0) 0) as [Hz|Hz]; [|lia].
    exfalso. apply (windowless_smoothed_state f (feed self0 fs) s Hr);
      [now rewrite Hsw|exact Hs]. }
  split; [|split; [|split; [|exact reachable_from_fresh]]].
  - intro Hm. split.
    + intros f s Hs Hne.
      apply confirmation_on_the_last_of_the_run; try assumption.
      split; [exact (Hwin f s Hs)|exact Hm].
    + intro Hm3. split.
      * intros f1 f2 f3 Hz Htrace.
        assert (Hs : smoothed_state_of f1 (feed self0 fs) = inr not_looking).
        { cbn [smoothed_trace] in Htrace. now injection Htrace. }
        apply (two_frames_do_not_confirm self0 fs Hf
                 (conj (Hwin f1 _ Hs) Hm) f1 f2 f3 Hm3 Hz Htrace).
      * intros f1 f2 s Hne Hz Htrace.
        assert (Hs : smoothed_state_of f1 (feed self0 fs) = inr s).
        { cbn [smoothed_trace] in Htrace. now injection Htrace. }
        apply (isolated_flip_is_ignored self0 fs Hf
                 (conj (Hwin f1 _ Hs) Hm) f1 f2 s); [lia|assumption..].
  - intros f s Hs Heq. rewrite feed_app. cbn [feed].
    destruct (step_fields f _ _ _ _ _ _ Hs eq_refl eq_refl eq_refl eq_refl)
      as (_ & _ & C & _).
    apply state_eqb_eq in Heq. now rewrite Heq in C.
  - intros Hm f s Hs Hne. rewrite feed_app. cbn [feed].
    apply smoothed_state_of_inr in Hs. destruct Hs as [c E].
    destruct (step_debounce f _ s c E) as (_ & _ & Hconf & _).
    apply Hconf; [exact Hne|].
    rewrite Hmin. unfold pending_count.
    rewrite (reachable_count_zero _ Hr) by (rewrite Hmin; lia).
    destruct (state_eqb s (previous_state (feed self0 fs))); lia.
Qed.

(** The third call of the scenario: it changes the state exactly when it
    ends a run of three. *)
Lemma state_changes_only_on_the_confirming_call_witness :
  fresh (default_at 0)
  /\ (current_state
        (feed (default_at 0) (firstn 2 scenario_frames ++ [absent_at 2]))
      <> current_state (feed (default_at 0) (firstn 2 scenario_frames))
      <-> consecutive not_looking
            (smoothed_trace (default_at 0)
               (firstn 2 scenario_frames ++ [absent_at 2]))
          = min_consecutive_frames (default_at 0)).
Proof.
  assert (Hf : fresh (default_at 0)) by (repeat split).
  split; [exact Hf|].
  destruct (state_changes_only_on_the_confirming_call
              (default_at 0) (firstn 2 scenario_frames)
              (reachable_default 0) Hf) as (H & _).
  destruct H as (H & _); [vm_compute; discriminate|].
  apply H.
  - vm_compute. reflexivity.
  - vm_compute. discriminate.
Defined.

(** C3, counterexample.  [AttentionTracker(min_consecutive_frames=0)] is
    built in the state [looking]; its first call of [update], without a
    face, has the smoothed value [not_looking] and changes the state,
    although it ends a run of one call, not of [min_consecutive_frames = 0]
    calls. *)
Lemma first_differing_call_confirms_with_a_count_of_zero :
  __init__ 0 default_alert_threshold default_yaw_threshold
    default_pitch_threshold default_smoothing_window 0 = inr unconfirmed
  /\ current_state unconfirmed = looking
  /\ smoothed_state_of (absent_at 1) unconfirmed = inr not_looking
  /\ current_state (feed unconfirmed [absent_at 1]) = not_looking
  /\ consecutive not_looking (smoothed_trace unconfirmed [absent_at 1]) = 1
  /\ min_consecutive_frames unconfirmed = 0.
Proof. repeat split. Qed.

(** * Further properties of the tracker *)

(** ** The rate of state changes *)






(** ** The sliding window *)

Lemma lastn_all {A : Type} (n : nat) (l : list A) :
  (length l <= n)%nat -> lastn n l = l.
Proof.
  intro H. unfold lastn. replace (length l - n)%nat with 0%nat by lia.
  reflexivity.
Qed.

Lemma lastn_app_lastn {A : Type} (n : nat) (l r : list A) :
  lastn n (lastn n l ++ r) = lastn n (l ++ r).
Proof.
  unfold lastn.
  rewrite !length_app, length_skipn, !skipn_app, skipn_skipn, length_skipn.
  f_equal; f_equal; lia.
Qed.

(** What [append] leaves in a deque that respected its bound. *)
Lemma deque_append_items d x :
  0 <= deque.maxlen d -> deque.len d <= deque.maxlen d ->
  deque.items (deque.append d x)
  = lastn (Z.to_nat (deque.maxlen d)) (deque.items d ++ [x]).
Proof.
  unfold deque.len, deque.append. cbn [deque.items deque.maxlen].
  intros Hm Hl. rewrite length_app. cbn [length].
  destruct (deque.maxlen d <? Z.of_nat (length (deque.items d) + 1)) eqn:E.
  - apply Z.ltb_lt in E.
    assert (Hn : Z.to_nat (deque.maxlen d) = length (deque.items d)) by lia.
    unfold lastn. rewrite length_app, Hn. cbn [length].
    replace (length (deque.items d) + 1 - length (deque.items d))%nat
      with 1%nat by lia.
    reflexivity.
  - apply Z.ltb_ge in E. symmetry. apply lastn_all.
    rewrite length_app. cbn [length]. lia.
Qed.

Lemma step_window f self :
  0 <= smoothing_window self -> buffer_ok self ->
  deque.items (state_buffer (fst (step f self)))
  = lastn (Z.to_nat (smoothing_window self))
      (deque.items (state_buffer self) ++ [raw_of self f]).
Proof.
  intros Hw [Hm Hl]. rewrite step_buffer. unfold with_frame.
  cbn [state_buffer set_state_buffer set_last_update_time].
  rewrite <- Hm. apply deque_append_items; rewrite Hm; assumption.
Qed.

Lemma raw_of_config a b f :
  same_config a b -> raw_of a f = raw_of b f.
Proof.
  intros (_ & Hy & Hp & _). unfold raw_of, classify_attention.
  now rewrite Hy, Hp.
Qed.

Lemma feed_window fs : forall self,
  0 <= smoothing_window self -> buffer_ok self ->
  deque.items (state_buffer (feed self fs))
  = lastn (Z.to_nat (smoothing_window self))
      (deque.items (state_buffer self) ++ map (raw_of self) fs).
Proof.
  induction fs as [|f fs IH]; intros self Hw Hb; cbn [feed map].
  - rewrite app_nil_r. symmetry. apply lastn_all.
    destruct Hb as [_ Hl]. unfold deque.len in Hl. lia.
  - destruct (step_config f self) as (Ha & Hy & Hp & Hsw & Hm).
    rewrite IH.
    + rewrite Hsw, (step_window f self Hw Hb), lastn_app_lastn.
      rewrite <- app_assoc. cbn [app]. do 2 f_equal. f_equal.
      apply map_ext. intro g. apply raw_of_config. repeat split; assumption.
    + now rewrite Hsw.
    + now apply step_buffer_ok.
Qed.

(** X3.  The buffer is a sliding window over the raw classifications: after
    any sequence of [update] calls on an object built by [__init__], it
    holds the raw classifications of the last [smoothing_window] calls, in
    call order (all of them when fewer calls were made), whatever the
    smoothed values and states were; after a [reset] it starts over. *)
Theorem buffer_holds_the_latest_raw_states :
  forall (now a y p : Q) (w m : Z) (self : AttentionTracker)
         (fs gs : list Frame) (now' : Q),
    __init__ now a y p w m = inr self ->
    deque.items (state_buffer (feed self fs))
    = lastn (Z.to_nat w) (map (raw_of self) fs)
    /\ deque.items (state_buffer (feed (reset now' (feed self fs)) gs))
       = lastn (Z.to_nat w) (map (raw_of self) gs)
    /\ deque.len (state_buffer (feed self fs))
       = Z.min w (Z.of_nat (length fs)).
Proof.
  intros now a y p w m self fs gs now' Hi.
  assert (Hr : reachable self) by (eapply reachable_init; eassumption).
  apply init_inr in Hi. destruct Hi as [Hw Hself].
  assert (Hsw : smoothing_window self = w) by (subst self; reflexivity).
  assert (Hit : deque.items (state_buffer self) = [])
    by (subst self; reflexivity).
  destruct (reachable_invariants self Hr) as (H0 & Hb & _).
  assert (H1 : deque.items (state_buffer (feed self fs))
               = lastn (Z.to_nat w) (map (raw_of self) fs)).
  { rewrite (feed_window fs self H0 Hb), Hit, Hsw. reflexivity. }
  split; [exact H1|]. split.
  - set (t := reset now' (feed self fs)).
    assert (Hrt : reachable t)
      by (apply reachable_reset, reachable_feed; exact Hr).
    destruct (reachable_invariants t Hrt) as (Ht0 & Htb & _).
    rewrite (feed_window gs t Ht0 Htb).
    assert (Hc : same_config t self).
    { destruct (feed_config fs self) as (?&?&?&?&?).
      repeat split; assumption. }
    destruct Hc as (Ha' & Hy' & Hp' & Hw' & Hm').
    change (deque.items (state_buffer t)) with (@nil AttentionState).
    rewrite Hw', Hsw. cbn [app]. f_equal.
    apply map_ext. intro g. apply raw_of_config. repeat split; assumption.
  - unfold deque.len. rewrite H1. unfold lastn.
    rewrite length_skipn, length_map. lia.
Qed.

(** After the seven calls of the scenario the window holds five frames. *)
Lemma buffer_holds_the_latest_raw_states_witness :
  deque.items (state_buffer (feed (default_at 0) scenario_frames))
  = lastn 5 (map (raw_of (default_at 0)) scenario_frames)
  /\ deque.len (state_buffer (feed (default_at 0) scenario_frames)) = 5.
Proof.
  destruct (buffer_holds_the_latest_raw_states 0 5 25 20 5 3 (default_at 0)
              scenario_frames [] 0 eq_refl) as (H1 & _ & H2).
  split; [exact H1|exact H2].
Defined.

(** ** Constant streams of frames *)

Lemma init_pristine now a y p w m self :
  __init__ now a y p w m = inr self -> pristine self.
Proof.
  intro H. apply init_inr in H. destruct H as [_ ->]. repeat split.
Qed.

Lemma reset_pristine now self :
  deque.maxlen (state_buffer self) = smoothing_window self ->
  pristine (reset now self).
Proof. intro H. repeat split. exact H. Qed.

Lemma filter_all_looking l :
  Forall (eq looking) l -> filter (state_eqb looking) l = l.
Proof.
  induction 1 as [|x l <- _ IH]; cbn; [reflexivity|]. now rewrite IH.
Qed.

Lemma filter_no_looking l :
  Forall (eq not_looking) l -> filter (state_eqb looking) l = [].
Proof.
  induction 1 as [|x l <- _ IH]; cbn; [reflexivity|]. exact IH.
Qed.

Lemma Qlt_bool_false_iff (a b : Q) : Qlt_bool a b = false <-> (b <= a)%Q.
Proof.
  unfold Qlt_bool. rewrite negb_false_iff. apply Qle_bool_iff.
Qed.

Lemma Q_ratio_bounds (c n : Z) :
  0 <= c <= n -> 0 < n -> (0 <= inject_Z c / inject_Z n <= 1)%Q.
Proof.
  intros Hc Hn.
  assert (Hpos : (0 < inject_Z n)%Q)
    by (change 0%Q with (inject_Z 0); rewrite <- Zlt_Qlt; lia).
  assert (Hc0 : (0 <= inject_Z c)%Q)
    by (change 0%Q with (inject_Z 0); rewrite <- Zle_Qle; lia).
  assert (Hcn : (inject_Z c <= inject_Z n)%Q) by (rewrite <- Zle_Qle; lia).
  split.
  - apply Qle_shift_div_l; [exact Hpos|]. lra.
  - apply Qle_shift_div_r; [exact Hpos|]. lra.
Qed.

Lemma with_frame_constant f self r :
  Forall (eq r) (deque.items (state_buffer self)) -> raw_of self f = r ->
  Forall (eq r) (deque.items (state_buffer (with_frame f self))).
Proof.
  intros Hall Hraw.
  change (state_buffer (with_frame f self))
    with (deque.append (state_buffer self) (raw_of self f)).
  rewrite Hraw. unfold deque.append. cbn [deque.items].
  assert (Hxs : Forall (eq r) (deque.items (state_buffer self) ++ [r])).
  { apply Forall_app. split; [exact Hall|]. now constructor. }
  destruct (deque.maxlen (state_buffer self) <? _); [|exact Hxs].
  destruct (deque.items (state_buffer self) ++ [r]); cbn [tl];
    [constructor|]. now inversion Hxs.
Qed.

(** A window that holds one value only votes for it, full or not. *)
Lemma smoothed_of_constant f self r :
  1 <= smoothing_window self ->
  Forall (eq r) (deque.items (state_buffer self)) -> raw_of self f = r ->
  smoothed_state_of f self = inr r
  /\ Forall (eq r) (deque.items (state_buffer (fst (step f self)))).
Proof.
  intros Hw Hall Hraw.
  pose proof (with_frame_constant f self r Hall Hraw) as Hbuf.
  split; [|now rewrite step_buffer].
  unfold smoothed_state_of, smoothed_of.
  change (classify_attention self (frame_yaw f) (frame_pitch f))
    with (raw_of self f).
  rewrite Hraw. unfold smooth_over_buffer.
  change (smoothing_window (with_frame f self)) with (smoothing_window self).
  set (buf := state_buffer (with_frame f self)) in *.
  destruct (smoothing_window self <=? deque.len buf) eqn:Efull;
    [|reflexivity].
  apply Z.leb_le in Efull.
  destruct (deque.len buf =? 0) eqn:E0; [apply Z.eqb_eq in E0; lia|].
  apply Z.eqb_neq in E0.
  assert (Hlen : 0 < deque.len buf) by lia.
  assert (Hpos : (0 < inject_Z (deque.len buf))%Q)
    by (change 0%Q with (inject_Z 0); rewrite <- Zlt_Qlt; lia).
  destruct r.
  - unfold deque.count. rewrite (filter_all_looking _ Hbuf).
    fold (deque.len buf).
    replace (Qlt_bool (1 # 2) (inject_Z (deque.len buf) / inject_Z (deque.len buf)))
      with true; [reflexivity|].
    symmetry. apply Qlt_bool_iff. apply Qlt_shift_div_l; [exact Hpos|lra].
  - unfold deque.count. rewrite (filter_no_looking _ Hbuf). cbn [length Z.of_nat].
    replace (Qlt_bool (1 # 2) (inject_Z 0 / inject_Z (deque.len buf)))
      with false; [reflexivity|].
    symmetry. apply Qlt_bool_false_iff.
    apply Qle_shift_div_r; [exact Hpos|]. change (inject_Z 0) with 0%Q. lra.
Qed.

Lemma Forall_raw_step f self (P : AttentionState -> Prop) fs :
  Forall (fun g => P (raw_of self g)) fs ->
  Forall (fun g => P (raw_of (fst (step f self)) g)) fs.
Proof.
  apply Forall_impl. intros g H.
  now rewrite (raw_of_config _ self g (step_config f self)).
Qed.

Lemma absent_stream_stays fs : forall self,
  1 <= smoothing_window self ->
  Forall (eq not_looking) (deque.items (state_buffer self)) ->
  Forall (fun f => not_looking = raw_of self f) fs ->
  current_state self = not_looking ->
  current_state (feed self fs) = not_looking.
Proof.
  induction fs as [|f fs IH]; intros self Hw Hbuf Hraw Hcur; cbn [feed];
    [exact Hcur|].
  inversion Hraw as [|? ? Hf Hrest]; subst.
  destruct (smoothed_of_constant f self not_looking Hw Hbuf (eq_sym Hf))
    as [Hs Hbuf'].
  destruct (step_config f self) as (_ & _ & _ & Hsw & _).
  apply IH; [now rewrite Hsw|exact Hbuf'|now apply Forall_raw_step|].
  destruct (step_fields f self _ _ _ _ _ Hs Hcur eq_refl eq_refl eq_refl)
    as (_ & _ & C & _).
  exact C.
Qed.

Lemma absent_stream_confirms fs : forall self,
  valid_config self ->
  Forall (eq not_looking) (deque.items (state_buffer self)) ->
  Forall (fun f => not_looking = raw_of self f) fs ->
  current_state self = looking ->
  0 <= consecutive_count self < min_consecutive_frames self ->
  (consecutive_count self = 0 \/ previous_state self = not_looking) ->
  current_state (feed self fs)
  = if consecutive_count self + Z.of_nat (length fs)
       <? min_consecutive_frames self
    then looking else not_looking.
Proof.
  induction fs as [|f fs IH]; intros self [Hw Hm] Hbuf Hraw Hcur Hk Hprev;
    cbn [feed length].
  - replace (_ <? _) with true by (symmetry; apply Z.ltb_lt; lia). exact Hcur.
  - inversion Hraw as [|? ? Hf Hrest]; subst.
    destruct (smoothed_of_constant f self not_looking Hw Hbuf (eq_sym Hf))
      as [Hs Hbuf'].
    destruct (step_config f self) as (_ & _ & _ & Hsw & Hmin).
    destruct (step_fields f self _ _ _ _ _ Hs Hcur eq_refl eq_refl eq_refl)
      as (_ & P & C & N).
    change (state_eqb not_looking looking) with false in C, N.
    cbv beta iota zeta in C, N.
    assert (Hpend : (if state_eqb not_looking (previous_state self)
                     then consecutive_count self + 1 else 1)
                    = consecutive_count self + 1).
    { destruct (state_eqb not_looking (previous_state self)) eqn:Ep;
        [reflexivity|].
      apply state_eqb_neq in Ep. destruct Hprev as [->|Hp]; [reflexivity|].
      congruence. }
    rewrite Hpend in C, N.
    destruct (min_consecutive_frames self <=? consecutive_count self + 1)
      eqn:El.
    + apply Z.leb_le in El.
      replace (_ <? _) with false by (symmetry; apply Z.ltb_ge; lia).
      apply absent_stream_stays;
        [now rewrite Hsw|exact Hbuf'|now apply Forall_raw_step|exact C].
    + apply Z.leb_gt in El.
      rewrite IH; [|split; [now rewrite Hsw|now rewrite Hmin]|exact Hbuf'
                   |now apply Forall_raw_step|exact C|rewrite Hmin, N; lia
                   |now right].
      rewrite Hmin, N.
      replace (consecutive_count self + 1 + Z.of_nat (length fs))
        with (consecutive_count self + Z.of_nat (S (length fs))) by lia.
      reflexivity.
Qed.

(** X2.  Sustained absence is confirmed at the [min_consecutive_frames]-th
    call.  On an object just built or just reset, with a window and a
    confirmation count of at least 1, feed [n] frames whose raw
    classification is [not_looking] (no face, or an angle at or beyond its
    threshold): the state is [looking] while [n < min_consecutive_frames]
    and [not_looking] from then on, whatever the window size.  This is the
    repository's state-transition test for every configuration. *)
Theorem sustained_absence_confirms_after_min_frames :
  forall (self : AttentionTracker) (fs : list Frame),
    pristine self -> valid_config self ->
    Forall (fun f => not_looking = raw_of self f) fs ->
    current_state (feed self fs)
    = if Z.of_nat (length fs) <? min_consecutive_frames self
      then looking else not_looking.
Proof.
  intros self fs ((Hc & Hp & Hn) & Hit & _) Hv Hraw.
  rewrite (absent_stream_confirms fs self Hv); [now rewrite Hn| |exact Hraw
    |exact Hc|destruct Hv; lia|now left].
  rewrite Hit. constructor.
Qed.

(** The repository's test: window 3, five frames with yaw 30. *)
Lemma sustained_absence_confirms_after_min_frames_witness :
  current_state
    (feed (mkTracker 5 25 20 3 3 looking looking (deque.make 3 []) 0 0 0
             false 0 0 0)
       (repeat (mkFrame 0 (Some 30%Q) (Some 0%Q)) 5))
  = not_looking.
Proof.
  rewrite sustained_absence_confirms_after_min_frames.
  - reflexivity.
  - repeat split.
  - split; vm_compute; discriminate.
  - repeat constructor.
Defined.

Lemma looking_stream fs : forall self,
  1 <= smoothing_window self ->
  Forall (eq looking) (deque.items (state_buffer self)) ->
  Forall (fun f => looking = raw_of self f) fs ->
  current_state self = looking -> calm self ->
  Forall (fun r => exists fr, r = inr fr
                              /\ FrameResult.state fr = looking
                              /\ FrameResult.alert_active fr = false
                              /\ FrameResult.time_not_looking fr = 0%Q)
         (results self fs)
  /\ current_state (feed self fs) = looking
  /\ frames_looking (feed self fs)
     = frames_looking self + Z.of_nat (length fs)
  /\ frames_not_looking (feed self fs) = frames_not_looking self.
Proof.
  induction fs as [|f fs IH]; intros self Hw Hbuf Hraw Hcur Hcalm;
    cbn [results feed length].
  - split; [constructor|]. split; [exact Hcur|]. split; [lia|reflexivity].
  - inversion Hraw as [|? ? Hf Hrest]; subst.
    destruct (smoothed_of_constant f self looking Hw Hbuf (eq_sym Hf))
      as [Hs Hbuf'].
    destruct (step_config f self) as (_ & _ & _ & Hsw & _).
    destruct (step_fields f self _ _ _ _ _ Hs Hcur eq_refl eq_refl eq_refl)
      as (_ & _ & C & _).
    cbn [state_eqb] in C.
    pose proof (step_calm f self Hcalm) as Hcalm'.
    destruct (Hcalm' C) as [Ht Ha].
    destruct (step_returns f self Hw) as [fr Hfr].
    destruct (step_result f self fr Hfr) as (Rs & Rt & Ra & _ & s & E).
    assert (Hstats : frames_looking (fst (step f self)) = frames_looking self + 1
                     /\ frames_not_looking (fst (step f self))
                        = frames_not_looking self).
    { pose proof (after_smoothing_stats
                    (frame_time f - last_update_time self)%Q s
                    (with_frame f self)) as H.
      cbv zeta in H. rewrite <- (step_fst _ _ _ _ E) in H.
      destruct H as (_ & [(_ & H1 & H2)|(Hn & _)]); [now split|congruence]. }
    destruct Hstats as [Hl Hn].
    destruct (IH (fst (step f self))) as (I1 & I2 & I3 & I4);
      [now rewrite Hsw|exact Hbuf'|now apply Forall_raw_step|exact C
      |exact Hcalm'|].
    split; [|split; [exact I2|split; [rewrite I3, Hl; lia|congruence]]].
    constructor; [|exact I1].
    exists fr. rewrite Rs, Rt, Ra. now repeat split.
Qed.

(** X4.  Sustained attention is never disturbed.  On an object just built or
    just reset, with a window of at least 1, feed any number of frames
    whose raw classification is [looking]: every call returns the state
    [looking] with no alert and [time_not_looking = 0.0], whatever the clock
    does, and each call is counted as a looking frame. *)
Theorem sustained_attention_never_alerts :
  forall (self : AttentionTracker) (fs : list Frame),
    pristine self -> 1 <= smoothing_window self ->
    Forall (fun f => looking = raw_of self f) fs ->
    Forall (fun r => exists fr, r = inr fr
                                /\ FrameResult.state fr = looking
                                /\ FrameResult.alert_active fr = false
                                /\ FrameResult.time_not_looking fr = 0%Q)
           (results self fs)
    /\ current_state (feed self fs) = looking
    /\ frames_looking (feed self fs)
       = frames_looking self + Z.of_nat (length fs)
    /\ frames_not_looking (feed self fs) = frames_not_looking self.
Proof.
  intros self fs ((Hc & _ & _) & Hit & _ & Ht & Ha) Hw Hraw.
  apply looking_stream; try assumption.
  - rewrite Hit. constructor.
  - intros _. now split.
Qed.

(** Four frames facing the screen, the clock stepping back and forth. *)
Lemma sustained_attention_never_alerts_witness :
  current_state
    (feed (default_at 0)
       [mkFrame 9 (Some 0%Q) (Some 0%Q); mkFrame 2 (Some 24%Q) (Some 19%Q);
        mkFrame 30 (Some (-24)%Q) (Some (-19)%Q); mkFrame 1 (Some 1%Q) (Some 1%Q)])
  = looking.
Proof.
  apply sustained_attention_never_alerts.
  - repeat split.
  - vm_compute. discriminate.
  - repeat constructor.
Defined.

(** ** The alert, the timer and the clock *)

(** X5.  No alert while looking.  On every object reached from construction
    by [update] and [reset] calls, a raised alert implies the state
    [not_looking], and the state [looking] implies [time_not_looking = 0.0]
    and no alert; so does every dictionary [update] returns. *)
Theorem alert_implies_not_looking :
  forall (self : AttentionTracker) (f : Frame),
    reachable self ->
    (alert_active self = true -> current_state self = not_looking)
    /\ (current_state self = looking ->
        time_not_looking self = 0%Q /\ alert_active self = false)
    /\ (forall fr, snd (step f self) = inr fr ->
          (FrameResult.alert_active fr = true ->
           FrameResult.state fr = not_looking)
          /\ (FrameResult.state fr = looking ->
              FrameResult.time_not_looking fr = 0%Q
              /\ FrameResult.alert_active fr = false)).
Proof.
  intros self f Hr.
  assert (Hgen : forall t, reachable t ->
            (alert_active t = true -> current_state t = not_looking)
            /\ (current_state t = looking ->
                time_not_looking t = 0%Q /\ alert_active t = false)).
  { intros t Ht. destruct (reachable_invariants t Ht) as (_ & _ & _ & Hc & _).
    split; [|exact Hc].
    intro Ha. destruct (current_state t) eqn:E; [|reflexivity].
    destruct (Hc E). congruence. }
  destruct (Hgen self Hr) as [H1 H2].
  split; [exact H1|]. split; [exact H2|].
  intros fr Hfr.
  destruct (step_result f self fr Hfr) as (-> & -> & -> & _).
  apply Hgen. now apply reachable_update.
Qed.

(** At the end of the scenario the alert is up and the state is
    [not_looking]. *)
Lemma alert_implies_not_looking_witness :
  alert_active scenario_end = true /\ current_state scenario_end = not_looking.
Proof.
  assert (Ha : alert_active scenario_end = true) by (vm_compute; reflexivity).
  split; [exact Ha|].
  exact (proj1 (alert_implies_not_looking scenario_end (absent_at 7)
                  (reachable_feed _ _ (reachable_default 0))) Ha).
Defined.

Lemma step_last_update f self :
  last_update_time (fst (step f self)) = frame_time f.
Proof.
  destruct (smoothed_of f self) as [e|[s c]] eqn:E.
  - now rewrite (step_raises _ _ _ E).
  - rewrite (step_fst _ _ _ _ E). blocks; reflexivity.
Qed.

Lemma after_smoothing_clock d s t :
  (0 <= d)%Q -> clock_inv t -> clock_inv (after_smoothing d s t).
Proof.
  intros Hd [H0 Ha]. unfold clock_inv. revert H0 Ha.
  blocks; intros H0 Ha;
    (split;
     [try lra; try apply Qle_refl
     |intro H; try discriminate; try (apply Qle_bool_iff; assumption);
      try (specialize (Ha H); lra)]).
Qed.

Lemma after_smoothing_alert_due d s t :
  alert_due t -> alert_due (after_smoothing d s t).
Proof.
  unfold alert_due.
  blocks; eqb_facts; intros Hdue Hc Hth; try reflexivity; try congruence;
    try (now apply Hdue);
    try (match goal with
         | E : Qle_bool ?a ?b = false |- _ =>
             apply Qle_bool_iff in Hth; congruence
         end);
    try (destruct s, (current_state t); congruence).
Qed.

Lemma feed_clock fs : forall self,
  clock_inv self -> alert_due self ->
  clock_monotone (last_update_time self) fs ->
  clock_inv (feed self fs) /\ alert_due (feed self fs).
Proof.
  induction fs as [|f fs IH]; intros self Hc Hd Hm; cbn [feed];
    [now split|].
  destruct Hm as [Hle Hm].
  apply IH.
  - destruct (smoothed_of f self) as [e|[s c]] eqn:E.
    + rewrite (step_raises _ _ _ E). exact Hc.
    + rewrite (step_fst _ _ _ _ E). apply after_smoothing_clock; [|exact Hc].
      lra.
  - destruct (smoothed_of f self) as [e|[s c]] eqn:E.
    + rewrite (step_raises _ _ _ E). exact Hd.
    + rewrite (step_fst _ _ _ _ E). apply after_smoothing_alert_due. exact Hd.
  - now rewrite step_last_update.
Qed.

(** X6.  With a clock that never steps back the timer and the alert agree.
    Build an object when the clock reads [now] and call [update] at clock
    readings that never decrease: [time_not_looking] is never negative, and
    the alert is raised exactly when the state is [not_looking] and
    [time_not_looking >= alert_threshold]; with a positive threshold,
    exactly when [time_not_looking >= alert_threshold]. *)
Theorem monotone_clock_alert_matches_timer :
  forall (now a y p : Q) (w m : Z) (self : AttentionTracker)
         (fs : list Frame),
    __init__ now a y p w m = inr self ->
    clock_monotone now fs ->
    (0 <= time_not_looking (feed self fs))%Q
    /\ (alert_active (feed self fs) = true
        <-> current_state (feed self fs) = not_looking
            /\ (a <= time_not_looking (feed self fs))%Q)
    /\ ((0 < a)%Q ->
        (alert_active (feed self fs) = true
         <-> (a <= time_not_looking (feed self fs))%Q)).
Proof.
  intros now a y p w m self fs Hi Hm.
  assert (Hr : reachable (feed self fs))
    by (apply reachable_feed; eapply reachable_init; eassumption).
  apply init_inr in Hi. destruct Hi as [_ Hself].
  assert (Hth : alert_threshold (feed self fs) = a).
  { destruct (feed_config fs self) as (-> & _). now subst self. }
  destruct (feed_clock fs self) as [[H0 Ha] Hd].
  - subst self. split; [apply Qle_refl|discriminate].
  - subst self. intro H. discriminate.
  - now subst self.
  - unfold alert_due in Hd. rewrite Hth in Ha, Hd.
    destruct (reachable_invariants _ Hr) as (_ & _ & _ & Hcalm & _).
    assert (Hnl : alert_active (feed self fs) = true ->
                  current_state (feed self fs) = not_looking).
    { intro Hal. destruct (current_state (feed self fs)) eqn:E;
        [|reflexivity]. destruct (Hcalm E). congruence. }
    split; [exact H0|]. split.
    + split; [intro Hal; split; auto|intros [Hc Hle]; auto].
    + intro Hpos. split; [exact Ha|].
      intro Hle. apply Hd; [|exact Hle].
      destruct (current_state (feed self fs)) eqn:E; [|reflexivity].
      destruct (Hcalm E) as [Ht _]. rewrite Ht in Hle. lra.
Qed.

(** The scenario's clock never steps back: at its end 5 s are accumulated
    and the alert is up. *)
Lemma monotone_clock_alert_matches_timer_witness :
  (0 <= time_not_looking (feed (default_at 0) scenario_frames))%Q
  /\ (alert_active (feed (default_at 0) scenario_frames) = true
      <-> (5 <= time_not_looking (feed (default_at 0) scenario_frames))%Q).
Proof.
  destruct (monotone_clock_alert_matches_timer 0 5 25 20 5 3 (default_at 0)
              scenario_frames eq_refl) as (H1 & _ & H2).
  - repeat split; vm_compute; discriminate.
  - split; [exact H1|]. apply H2. reflexivity.
Defined.

(** ** Ranges of the reported ratios *)

(** X7.  Whatever the object, when [update] returns, the confidence it
    returns lies between 0 and 1. *)
Theorem confidence_is_a_fraction :
  forall (self : AttentionTracker) (f : Frame) (fr : FrameResult.t),
    snd (step f self) = inr fr ->
    (0 <= FrameResult.confidence fr <= 1)%Q.
Proof.
  intros self f fr Hfr.
  destruct (step_result f self fr Hfr) as (_ & _ & _ & _ & s & E).
  revert E. generalize (FrameResult.confidence fr). intro c.
  unfold smoothed_of, smooth_over_buffer.
  set (buf := state_buffer (with_frame f self)).
  destruct (smoothing_window (with_frame f self) <=? deque.len buf);
    [destruct (deque.len buf =? 0) eqn:E0; [discriminate|]|].
  - intros [= _ <-]. apply Z.eqb_neq in E0.
    pose proof (deque_count_bounds buf looking).
    apply Q_ratio_bounds; [assumption|]. unfold deque.len in *. lia.
  - intros [= _ <-].
    destruct (classify_attention self (frame_yaw f) (frame_pitch f));
      split; discriminate.
Qed.

Lemma confidence_is_a_fraction_witness :
  exists fr, snd (step (absent_at 7) scenario_end) = inr fr
             /\ (0 <= FrameResult.confidence fr <= 1)%Q.
Proof.
  eexists. split; [vm_compute; reflexivity|].
  apply (confidence_is_a_fraction scenario_end (absent_at 7)).
  vm_compute. reflexivity.
Defined.

(** X8.  On every object reached from construction by [update] and [reset]
    calls the three counters are never negative, [frames_looking] never
    exceeds [total_frames], and the attention ratio [get_statistics]
    reports lies between 0 and 1. *)
Theorem attention_ratio_is_a_fraction :
  forall self : AttentionTracker,
    reachable self ->
    0 <= Stats.frames_looking (get_statistics self)
      <= Stats.total_frames (get_statistics self)
    /\ 0 <= Stats.frames_not_looking (get_statistics self)
    /\ (0 <= Stats.attention_ratio (get_statistics self) <= 1)%Q.
Proof.
  intros self Hr.
  destruct (reachable_invariants self Hr) as (_ & _ & (Ht & Hl & Hn) & _).
  cbn [get_statistics Stats.frames_looking Stats.total_frames
       Stats.frames_not_looking Stats.attention_ratio].
  split; [lia|]. split; [exact Hn|].
  destruct (total_frames self =? 0) eqn:E.
  - split; discriminate.
  - apply Z.eqb_neq in E. apply Q_ratio_bounds; lia.
Qed.

Lemma attention_ratio_is_a_fraction_witness :
  (0 <= Stats.attention_ratio (get_statistics scenario_end) <= 1)%Q.
Proof.
  exact (proj2 (proj2 (attention_ratio_is_a_fraction scenario_end
                         (reachable_feed _ _ (reachable_default 0))))).
Defined.

(** ** A window of size 0 *)

Lemma windowless_feed fs : forall self,
  reachable self -> smoothing_window self = 0 ->
  Forall (eq (inl ZeroDivisionError)) (results self fs)
  /\ get_statistics (feed self fs) = get_statistics self
  /\ deque.items (state_buffer (feed self fs)) = []
  /\ consecutive_count (feed self fs) = consecutive_count self
  /\ previous_state (feed self fs) = previous_state self.
Proof.
  induction fs as [|f fs IH]; intros self Hr Hw; cbn [results feed].
  - split; [constructor|]. split; [reflexivity|].
    split; [|now split].
    destruct (reachable_invariants self Hr) as (_ & [_ Hl] & _).
    unfold deque.len in Hl. rewrite Hw in Hl.
    destruct (deque.items (state_buffer self)); [reflexivity|].
    cbn [length] in Hl. lia.
  - destruct (update_raises_on_empty_window self f Hr Hw) as [Hstep _].
    destruct (IH (fst (step f self))) as (I1 & I2 & I3 & I4 & I5).
    + now apply reachable_update.
    + destruct (step_config f self) as (_ & _ & _ & -> & _). exact Hw.
    + rewrite Hstep in *. cbn [fst snd] in *.
      split; [constructor; [reflexivity|exact I1]|].
      split; [exact I2|]. split; [exact I3|]. split; [exact I4|exact I5].
Qed.

(** X9.  A window of size 0 is accepted by [__init__] and disables the
    tracker: every call of [update] raises [ZeroDivisionError], however many
    are made, and the object never counts a frame, never changes state and
    never accumulates time. *)
Theorem window_of_size_zero_always_raises :
  forall (now a y p : Q) (m : Z) (fs : list Frame),
    exists self,
      __init__ now a y p 0 m = inr self
      /\ Forall (eq (inl ZeroDivisionError)) (results self fs)
      /\ get_statistics (feed self fs)
         = Stats.make 0 0 0 1%Q looking 0%Q false
      /\ deque.items (state_buffer (feed self fs)) = [].
Proof.
  intros now a y p m fs. eexists. split; [reflexivity|].
  match goal with |- Forall _ (results ?t _) /\ _ => set (self := t) end.
  assert (Hr : reachable self)
    by (apply (reachable_init now a y p 0 m); reflexivity).
  destruct (windowless_feed fs self Hr eq_refl) as (H1 & H2 & H3 & _).
  split; [exact H1|]. split; [rewrite H2; reflexivity|exact H3].
Qed.

(** * Properties of the application around the tracker *)

(** ** The frame-rate counter *)

Lemma Qeq_bool_minus (a b : Q) : Qeq_bool (a - b) 0 = true <-> (a == b)%Q.
Proof.
  rewrite Qeq_bool_iff. split; intro H; lra.
Qed.

Lemma calculate_fps_counts now self :
  AttentionMonitor.frame_count self + 1 < 30 ->
  calculate_fps now self
  = (AttentionMonitor.make (AttentionMonitor.fps self)
       (AttentionMonitor.frame_count self + 1)
       (AttentionMonitor.fps_start_time self), inr tt).
Proof.
  intro H. unfold calculate_fps. cbn [AttentionMonitor.frame_count].
  replace (30 <=? AttentionMonitor.frame_count self + 1) with false
    by (symmetry; apply Z.leb_gt; lia).
  reflexivity.
Qed.

Lemma calculate_fps_measures now self :
  30 <= AttentionMonitor.frame_count self + 1 ->
  ~ (now == AttentionMonitor.fps_start_time self)%Q ->
  calculate_fps now self
  = (AttentionMonitor.make
       (inject_Z (AttentionMonitor.frame_count self + 1)
        / (now - AttentionMonitor.fps_start_time self))%Q 0 now, inr tt).
Proof.
  intros H Hne. unfold calculate_fps.
  cbn [AttentionMonitor.frame_count AttentionMonitor.fps_start_time].
  replace (30 <=? AttentionMonitor.frame_count self + 1) with true
    by (symmetry; apply Z.leb_le; lia).
  destruct (Qeq_bool (now - AttentionMonitor.fps_start_time self) 0) eqn:E;
    [|reflexivity].
  apply Qeq_bool_minus in E. contradiction.
Qed.

Lemma calculate_fps_raises now self :
  30 <= AttentionMonitor.frame_count self + 1 ->
  (now == AttentionMonitor.fps_start_time self)%Q ->
  calculate_fps now self
  = (AttentionMonitor.make (AttentionMonitor.fps self)
       (AttentionMonitor.frame_count self + 1)
       (AttentionMonitor.fps_start_time self), inl ZeroDivisionError).
Proof.
  intros H Heq. unfold calculate_fps.
  cbn [AttentionMonitor.frame_count AttentionMonitor.fps_start_time].
  replace (30 <=? AttentionMonitor.frame_count self + 1) with true
    by (symmetry; apply Z.leb_le; lia).
  apply Qeq_bool_minus in Heq. now rewrite Heq.
Qed.

Lemma count_frames_counts clock : forall self,
  AttentionMonitor.frame_count self + Z.of_nat (length clock) < 30 ->
  count_frames self clock
  = (AttentionMonitor.make (AttentionMonitor.fps self)
       (AttentionMonitor.frame_count self + Z.of_nat (length clock))
       (AttentionMonitor.fps_start_time self), None).
Proof.
  induction clock as [|now clock IH]; intros self H;
    cbn [count_frames length] in *.
  - destruct self. cbn. now rewrite Z.add_0_r.
  - rewrite calculate_fps_counts by lia. rewrite IH.
    + cbn [AttentionMonitor.fps AttentionMonitor.frame_count
           AttentionMonitor.fps_start_time].
      do 2 f_equal. lia.
    + cbn [AttentionMonitor.frame_count]. lia.
Qed.

Lemma count_frames_snoc clock : forall self self' now,
  count_frames self clock = (self', None) ->
  count_frames self (clock ++ [now])
  = match calculate_fps now self' with
    | (t, inl e) => (t, Some e)
    | (t, inr _) => (t, None)
    end.
Proof.
  induction clock as [|c clock IH]; intros self self' now H;
    cbn [count_frames app] in *.
  - injection H as <-. now destruct (calculate_fps now self) as [t [e|u]].
  - destruct (calculate_fps c self) as [t [e|u]]; [discriminate|].
    now apply IH.
Qed.

(** X10.  The frame rate is measured over windows of 30 frames.  From a
    counter at 0 (as [__init__] and every measurement leave it), 29 calls
    of [calculate_fps] only count, leaving [fps] and the window start as
    they were; the 30th, if the clock has moved since the window started,
    sets [fps] to 30 divided by the time elapsed, positive when the clock
    advanced, starts the next window at that clock reading and clears the
    counter.  Every call that returns keeps [0 <= frame_count < 30]. *)
Theorem fps_is_measured_every_thirty_frames :
  forall (self : AttentionMonitor.t) (clock : list Q) (end_time : Q),
    AttentionMonitor.frame_count self = 0 ->
    length clock = 29%nat ->
    ~ (end_time == AttentionMonitor.fps_start_time self)%Q ->
    count_frames self clock
    = (AttentionMonitor.make (AttentionMonitor.fps self) 29
         (AttentionMonitor.fps_start_time self), None)
    /\ count_frames self (clock ++ [end_time])
       = (AttentionMonitor.make
            (30 / (end_time - AttentionMonitor.fps_start_time self))%Q
            0 end_time, None)
    /\ ((AttentionMonitor.fps_start_time self < end_time)%Q ->
        (0 < 30 / (end_time - AttentionMonitor.fps_start_time self))%Q)
    /\ (forall now t,
          0 <= AttentionMonitor.frame_count t < 30 ->
          forall t', calculate_fps now t = (t', inr tt) ->
          0 <= AttentionMonitor.frame_count t' < 30).
Proof.
  intros self clock e H0 Hlen Hne.
  assert (H29 : count_frames self clock
                = (AttentionMonitor.make (AttentionMonitor.fps self) 29
                     (AttentionMonitor.fps_start_time self), None)).
  { rewrite count_frames_counts by (rewrite H0, Hlen; cbn; lia).
    now rewrite H0, Hlen. }
  split; [exact H29|]. split; [|split].
  - rewrite (count_frames_snoc clock self _ e H29).
    rewrite calculate_fps_measures; cbn; [reflexivity|lia|exact Hne].
  - intro Hlt. apply Qlt_shift_div_l; lra.
  - intros now t Ht t'.
    destruct (Z_lt_ge_dec (AttentionMonitor.frame_count t + 1) 30) as [L|G].
    + rewrite calculate_fps_counts by exact L. intros [= <-]. cbn. lia.
    + unfold calculate_fps. cbn [AttentionMonitor.frame_count].
      replace (30 <=? AttentionMonitor.frame_count t + 1) with true
        by (symmetry; apply Z.leb_le; lia).
      destruct (Qeq_bool _ 0); [discriminate|]. intros [= <-]. cbn. lia.
Qed.

(** Thirty frames in one second from start: 30 frames per second. *)
Lemma fps_is_measured_every_thirty_frames_witness :
  count_frames (monitor_init 0) (repeat 0%Q 29 ++ [1%Q])
  = (AttentionMonitor.make (30 / (1 - 0))%Q 0 1, None).
Proof.
  destruct (fps_is_measured_every_thirty_frames (monitor_init 0)
              (repeat 0%Q 29) 1%Q) as (_ & H & _).
  - reflexivity.
  - reflexivity.
  - vm_compute. discriminate.
  - exact H.
Defined.

(** X11.  If the clock has not moved over the window, the measuring call of
    [calculate_fps] raises [ZeroDivisionError] with the counter already
    incremented and not cleared: [frame_count] is left at 30 or more, where
    the loop that counts never puts it, and the main loop ends there.  Were
    the exception caught, the next call would measure again at once, over
    one frame more. *)
Theorem fps_division_by_zero_leaves_the_counter :
  forall (self : AttentionMonitor.t) (now later : Q),
    29 <= AttentionMonitor.frame_count self ->
    (now == AttentionMonitor.fps_start_time self)%Q ->
    ~ (later == AttentionMonitor.fps_start_time self)%Q ->
    let stuck :=
      AttentionMonitor.make (AttentionMonitor.fps self)
        (AttentionMonitor.frame_count self + 1)
        (AttentionMonitor.fps_start_time self) in
    calculate_fps now self = (stuck, inl ZeroDivisionError)
    /\ 30 <= AttentionMonitor.frame_count stuck
    /\ (forall clock,
          count_frames self (now :: clock) = (stuck, Some ZeroDivisionError))
    /\ calculate_fps later stuck
       = (AttentionMonitor.make
            (inject_Z (AttentionMonitor.frame_count self + 2)
             / (later - AttentionMonitor.fps_start_time self))%Q 0 later,
          inr tt).
Proof.
  intros self now later H Heq Hne. cbv zeta.
  assert (Hr := calculate_fps_raises now self ltac:(lia) Heq).
  split; [exact Hr|]. split; [cbn; lia|]. split.
  - intro clock. cbn [count_frames]. now rewrite Hr.
  - rewrite calculate_fps_measures;
      cbn [AttentionMonitor.frame_count AttentionMonitor.fps_start_time
           AttentionMonitor.fps]; [|lia|exact Hne].
    replace (AttentionMonitor.frame_count self + 1 + 1)
      with (AttentionMonitor.frame_count self + 2) by lia.
    reflexivity.
Qed.

(** Thirty frames with the clock stuck at the window start. *)
Lemma fps_division_by_zero_leaves_the_counter_witness :
  count_frames (monitor_init 0) (repeat 0%Q 30)
  = (AttentionMonitor.make 0 30 0, Some ZeroDivisionError).
Proof.
  change (repeat 0%Q 30) with (repeat 0%Q 29 ++ [0%Q]).
  rewrite (count_frames_snoc (repeat 0%Q 29) (monitor_init 0)
             (AttentionMonitor.make 0 29 0) 0%Q) by reflexivity.
  destruct (fps_division_by_zero_leaves_the_counter
              (AttentionMonitor.make 0 29 0) 0%Q 1%Q) as (H & _).
  - vm_compute. discriminate.
  - reflexivity.
  - vm_compute. discriminate.
  - now rewrite H.
Defined.

(** ** Truncation *)

Lemma py_int_le (x : Q) (n : Z) : (x <= inject_Z n)%Q -> py_int x <= n.
Proof.
  unfold Qle, py_int. cbn [Qnum Qden inject_Z]. rewrite Z.mul_1_r. intro H.
  rewrite <- (Z.quot_mul n (Zpos (Qden x))) by discriminate.
  apply Z.quot_le_mono; [reflexivity|exact H].
Qed.

Lemma py_int_ge (x : Q) (n : Z) : (inject_Z n <= x)%Q -> n <= py_int x.
Proof.
  unfold Qle, py_int. cbn [Qnum Qden inject_Z]. rewrite Z.mul_1_r. intro H.
  rewrite <- (Z.quot_mul n (Zpos (Qden x))) at 1 by discriminate.
  apply Z.quot_le_mono; [reflexivity|exact H].
Qed.

Lemma py_min_le (x y : Q) : (py_min x y <= y)%Q /\ (py_min x y <= x)%Q.
Proof.
  unfold py_min. destruct (Qlt_bool y x) eqn:E.
  - apply Qlt_bool_iff in E. split; lra.
  - apply Qlt_bool_false_iff in E. split; lra.
Qed.

(** ** The alert overlay *)

Lemma pulse_range self :
  (1 # 2 <= UIOverlay.alert_alpha (pulse self) <= 1)%Q
  /\ (UIOverlay.alert_pulse_direction (pulse self) = 1
      \/ UIOverlay.alert_pulse_direction (pulse self) = -1
      \/ UIOverlay.alert_pulse_direction (pulse self)
         = UIOverlay.alert_pulse_direction self)
  /\ UIOverlay.alert_color (pulse self) = UIOverlay.alert_color self
  /\ UIOverlay.alert_message (pulse self) = UIOverlay.alert_message self.
Proof.
  unfold pulse.
  destruct (Qle_bool 1 _) eqn:E1; [cbn; repeat split; auto; discriminate|].
  destruct (Qle_bool _ (1 # 2)) eqn:E2; [cbn; repeat split; auto; discriminate|].
  cbn [UIOverlay.alert_alpha UIOverlay.alert_pulse_direction
       UIOverlay.alert_color UIOverlay.alert_message].
  assert (H1 : ~ (1 <= UIOverlay.alert_alpha self
                       + (5 # 100)
                         * inject_Z (UIOverlay.alert_pulse_direction self))%Q)
    by (rewrite <- Qle_bool_iff; congruence).
  assert (H2 : ~ (UIOverlay.alert_alpha self
                  + (5 # 100) * inject_Z (UIOverlay.alert_pulse_direction self)
                  <= 1 # 2)%Q)
    by (rewrite <- Qle_bool_iff; congruence).
  repeat split; auto; lra.
Qed.

Lemma Qmult_le_l_nonneg (x y z : Q) :
  (0 <= z)%Q -> (x <= y)%Q -> (z * x <= z * y)%Q.
Proof.
  intros Hz Hxy. rewrite (Qmult_comm z x), (Qmult_comm z y).
  now apply Qmult_le_compat_r.
Qed.

Lemma channel_range (c : Z) (alpha : Q) :
  0 <= c -> (1 # 2 <= alpha <= 1)%Q ->
  c / 2 <= py_int (inject_Z c * alpha) <= c.
Proof.
  intros Hc [Hlo Hhi].
  assert (Hc0 : (0 <= inject_Z c)%Q)
    by (change 0%Q with (inject_Z 0); rewrite <- Zle_Qle; lia).
  split.
  - apply py_int_ge.
    apply Qle_trans with (inject_Z c * (1 # 2))%Q.
    + unfold Qle. cbn [Qnum Qden inject_Z Qmult].
      pose proof (Z.mul_div_le c 2 ltac:(lia)). lia.
    + apply Qmult_le_l_nonneg; assumption.
  - apply py_int_le.
    rewrite <- (Qmult_1_r (inject_Z c)) at 2.
    apply Qmult_le_l_nonneg; assumption.
Qed.

Section Overlay.

Variable getTextSize : String.string -> Z -> Q -> Z -> Z * Z.
Variable format_1f : Q -> String.string.

(** X12.  While the alert is drawn its text pulses between half and full
    brightness: after every call of [draw_alert] with the alert active,
    [alert_alpha] lies between 0.5 and 1.0 and the pulse direction, once 1
    or -1, remains 1 or -1; each channel of the colour the alert message is
    written in lies between half of the configured channel (rounded down)
    and the configured channel. *)
Theorem alert_text_pulses_between_half_and_full :
  forall (self : UIOverlay.t) (h w : Z) (time_not_looking : Q),
    let drawn := draw_alert getTextSize format_1f self h w true
                   time_not_looking in
    let self' := fst (fst drawn) in
    (1 # 2 <= UIOverlay.alert_alpha self' <= 1)%Q
    /\ (UIOverlay.alert_pulse_direction self = 1
        \/ UIOverlay.alert_pulse_direction self = -1 ->
        UIOverlay.alert_pulse_direction self' = 1
        \/ UIOverlay.alert_pulse_direction self' = -1)
    /\ (forall b g r,
          UIOverlay.alert_color self = (b, g, r) ->
          0 <= b -> 0 <= g -> 0 <= r ->
          exists b' g' r',
            color_pulsed self' = (b', g', r')
            /\ b / 2 <= b' <= b /\ g / 2 <= g' <= g /\ r / 2 <= r' <= r)
    /\ (exists org,
          In (cv2.putText cv2.blended (UIOverlay.alert_message self) org
                cv2.FONT_HERSHEY_SIMPLEX (UIOverlay.alert_font_scale self)
                (color_pulsed self') (UIOverlay.alert_thickness self))
             (snd (fst drawn)))
    /\ snd drawn = cv2.blended.
Proof.
  intros self h w t. cbv zeta.
  unfold draw_alert. cbn [negb fst snd].
  destruct (pulse_range self) as (Hrange & Hdir & Hcol & Hmsg).
  split; [exact Hrange|]. split; [|split; [|split]].
  - intros [H|H]; destruct Hdir as [D|[D|D]]; auto; rewrite D; auto.
  - intros b g r Hc Hb Hg Hr. unfold color_pulsed. rewrite Hcol, Hc.
    do 3 eexists. split; [reflexivity|].
    repeat split; apply channel_range; assumption.
  - eexists. cbn [app]. right. right. right. left.
    unfold pulse.
    destruct (Qle_bool 1 _); [reflexivity|].
    destruct (Qle_bool _ (1 # 2)); reflexivity.
  - reflexivity.
Qed.

(** X13.  With the alert inactive [draw_alert] draws nothing, returns the
    caller's frame and puts [alert_alpha] back to 0.0; the next time the
    alert is drawn, and the first time after construction, the text
    appears at exactly half brightness with the pulse rising. *)
Theorem alert_pulse_restarts_at_half :
  forall (self : UIOverlay.t) (h w h' w' : Z) (t t' : Q),
    let idle := draw_alert getTextSize format_1f self h w false t in
    idle
    = (UIOverlay.make (UIOverlay.alert_message self)
         (UIOverlay.alert_color self) (UIOverlay.alert_font_scale self)
         (UIOverlay.alert_thickness self) 0
         (UIOverlay.alert_pulse_direction self),
       [], cv2.frame)
    /\ (UIOverlay.alert_pulse_direction self = 1
        \/ UIOverlay.alert_pulse_direction self = -1 ->
        let again :=
          fst (fst (draw_alert getTextSize format_1f (fst (fst idle))
                      h' w' true t')) in
        UIOverlay.alert_alpha again = (1 # 2)%Q
        /\ UIOverlay.alert_pulse_direction again = 1)
    /\ (forall message color scale thickness,
          let first :=
            fst (fst (draw_alert getTextSize format_1f
                        (overlay_init message color scale thickness)
                        h' w' true t')) in
          UIOverlay.alert_alpha first = (1 # 2)%Q
          /\ UIOverlay.alert_pulse_direction first = 1).
Proof.
  intros self h w h' w' t t'. cbv zeta.
  split; [reflexivity|]. split.
  - intros [H|H]; unfold draw_alert; cbn [negb fst snd]; unfold pulse;
      cbn [UIOverlay.alert_alpha UIOverlay.alert_pulse_direction];
      rewrite H; split; reflexivity.
  - intros. split; reflexivity.
Qed.

(** ** The progress bar *)

Lemma bar_progress_le_1 t th : (bar_progress t th <= 1)%Q.
Proof. unfold bar_progress. apply py_min_le. Qed.

Lemma bar_fill_width_le t th : bar_fill_width t th <= bar_width.
Proof.
  unfold bar_fill_width. apply py_int_le.
  pose proof (bar_progress_le_1 t th).
  assert (H0 : (0 <= inject_Z bar_width)%Q) by discriminate.
  rewrite <- (Qmult_1_r (inject_Z bar_width)) at 2.
  now apply Qmult_le_l_nonneg.
Qed.

Lemma bar_full_at_threshold t th :
  (0 < th)%Q -> (th <= t)%Q ->
  bar_fill_width t th = bar_width
  /\ bar_color (bar_progress t th) = (0, 0, 255).
Proof.
  intros Hth Hle.
  assert (H1 : (1 <= t / th)%Q) by (apply Qle_shift_div_l; lra).
  assert (Hp : (1 <= bar_progress t th)%Q).
  { unfold bar_progress, py_min. destruct (Qlt_bool 1 (t / th)); lra. }
  split.
  - apply Z.le_antisymm; [apply bar_fill_width_le|].
    unfold bar_fill_width. apply py_int_ge.
    assert (H0 : (0 <= inject_Z bar_width)%Q) by discriminate.
    rewrite <- (Qmult_1_r (inject_Z bar_width)) at 1.
    now apply Qmult_le_l_nonneg.
  - unfold bar_color.
    replace (Qlt_bool (bar_progress t th) (1 # 2)) with false
      by (symmetry; apply Qlt_bool_false_iff; lra).
    replace (Qlt_bool (bar_progress t th) (8 # 10)) with false
      by (symmetry; apply Qlt_bool_false_iff; lra).
    reflexivity.
Qed.

(** X14.  The fill never leaves the bar.  Whatever the time and the
    threshold, every filled rectangle [draw_progress_bar] draws is on the
    caller's frame, starts at the bar's corner, has the bar's height and a
    positive width of at most the bar's 400 pixels: a time beyond the
    threshold fills the bar and no more, a negative ratio draws no fill.  A
    threshold of zero raises [ZeroDivisionError] when only the background
    of the bar has been drawn. *)
Theorem progress_bar_fill_stays_within_the_bar :
  forall (h w : Z) (time_not_looking threshold : Q),
    let drawn :=
      draw_progress_bar getTextSize format_1f h w time_not_looking threshold in
    Forall (within_bar h w) (fst drawn)
    /\ bar_fill_width time_not_looking threshold <= bar_width
    /\ (snd drawn = Some ZeroDivisionError <-> (threshold == 0)%Q)
    /\ (snd drawn = Some ZeroDivisionError ->
        fst drawn
        = [cv2.rectangle cv2.frame ((w - bar_width) / 2, h - 50)
             ((w - bar_width) / 2 + bar_width, h - 50 + bar_height)
             (100, 100, 100) (-1)])
    /\ (snd drawn = None -> (time_not_looking / threshold <= 0)%Q ->
        length (fst drawn) = 3%nat).
Proof.
  intros h w t th. cbv zeta.
  pose proof (bar_fill_width_le t th) as Hfill.
  unfold draw_progress_bar.
  destruct (Qeq_bool th 0) eqn:E; cbn [fst snd].
  - apply Qeq_bool_iff in E.
    split; [|split; [exact Hfill|split; [tauto|split; [reflexivity|]]]].
    + repeat constructor; unfold bar_width; lia.
    + discriminate.
  - assert (Hne : ~ (th == 0)%Q) by (rewrite <- Qeq_bool_iff; congruence).
    split; [|split; [exact Hfill|split; [|split]]].
    + constructor; [cbn; intros _; repeat split; unfold bar_width; lia|].
      apply Forall_app. split.
      * destruct (0 <? bar_fill_width t th) eqn:Ef; [|constructor].
        apply Z.ltb_lt in Ef. constructor; [|constructor].
        cbn. intros _. repeat split; lia.
      * constructor; [cbn; intro H; discriminate|].
        constructor; [exact I|constructor].
    + split; [discriminate|]. intro H. contradiction.
    + discriminate.
    + intros _ Hneg.
      assert (Hw : bar_fill_width t th <= 0).
      { unfold bar_fill_width. apply py_int_le.
        assert (Hp : (bar_progress t th <= 0)%Q).
        { pose proof (py_min_le (t / th) 1) as [_ H]. unfold bar_progress.
          lra. }
        assert (H0 : (0 <= inject_Z bar_width)%Q) by discriminate.
        apply Qle_trans with (inject_Z bar_width * 0)%Q;
          [now apply Qmult_le_l_nonneg|]. rewrite Qmult_0_r. apply Qle_refl. }
      replace (0 <? bar_fill_width t th) with false
        by (symmetry; apply Z.ltb_ge; exact Hw).
      reflexivity.
Qed.

(** X15.  With a positive threshold, a time that has reached it draws the
    bar full, 400 pixels, and red. *)
Theorem progress_bar_is_full_and_red_at_the_threshold :
  forall (h w : Z) (time_not_looking threshold : Q),
    (0 < threshold)%Q -> (threshold <= time_not_looking)%Q ->
    bar_fill_width time_not_looking threshold = bar_width
    /\ In (cv2.rectangle cv2.frame ((w - bar_width) / 2, h - 50)
             ((w - bar_width) / 2 + bar_width, h - 50 + bar_height)
             (0, 0, 255) (-1))
          (fst (draw_progress_bar getTextSize format_1f h w
                  time_not_looking threshold))
    /\ snd (draw_progress_bar getTextSize format_1f h w
              time_not_looking threshold) = None.
Proof.
  intros h w t th Hth Hle.
  destruct (bar_full_at_threshold t th Hth Hle) as [Hw Hc].
  split; [exact Hw|].
  unfold draw_progress_bar.
  replace (Qeq_bool th 0) with false
    by (symmetry; apply not_true_iff_false; rewrite Qeq_bool_iff; lra).
  cbn [fst snd]. split; [|reflexivity].
  rewrite Hw, Hc. right. left. reflexivity.
Qed.

(** X16.  The alert and the bar agree.  Build the tracker with a positive
    alert threshold and call [update] at clock readings that never
    decrease.  Whenever a call returns [alert_active = True], the state it
    returns is [not_looking], so that the main loop draws the progress bar
    for it, and the bar it draws, from the returned [time_not_looking] and
    the same threshold, is full and red. *)
Theorem alert_comes_with_a_full_red_bar :
  forall (now a y p : Q) (wn m : Z) (self : AttentionTracker)
         (fs : list Frame) (f : Frame) (fr : FrameResult.t) (h w : Z),
    __init__ now a y p wn m = inr self ->
    (0 < a)%Q ->
    clock_monotone now (fs ++ [f]) ->
    snd (step f (feed self fs)) = inr fr ->
    FrameResult.alert_active fr = true ->
    FrameResult.state fr = not_looking
    /\ bar_fill_width (FrameResult.time_not_looking fr) a = bar_width
    /\ In (cv2.rectangle cv2.frame ((w - bar_width) / 2, h - 50)
             ((w - bar_width) / 2 + bar_width, h - 50 + bar_height)
             (0, 0, 255) (-1))
          (fst (draw_progress_bar getTextSize format_1f h w
                  (FrameResult.time_not_looking fr) a)).
Proof.
  intros now a y p wn m self fs f fr h w Hi Ha Hm Hfr Hal.
  destruct (step_result f _ fr Hfr) as (Hs & Ht & Hact & _).
  assert (Hr : reachable (feed self (fs ++ [f])))
    by (apply reachable_feed; eapply reachable_init; eassumption).
  apply init_inr in Hi. destruct Hi as [_ Hself].
  assert (Hth : alert_threshold (feed self (fs ++ [f])) = a).
  { destruct (feed_config (fs ++ [f]) self) as (-> & _). now subst self. }
  destruct (feed_clock (fs ++ [f]) self) as [[_ Hinv] _].
  - subst self. split; [apply Qle_refl|discriminate].
  - subst self. intro H. discriminate.
  - now subst self.
  - rewrite feed_app in Hr, Hth, Hinv. cbn [feed] in Hr, Hth, Hinv.
    rewrite <- Hact, Hth, <- Ht in Hinv. specialize (Hinv Hal).
    destruct (reachable_invariants _ Hr) as (_ & _ & _ & Hcalm & _).
    assert (Hst : FrameResult.state fr = not_looking).
    { rewrite Hs. destruct (current_state _) eqn:E; [|reflexivity].
      destruct (Hcalm E) as [_ Hf]. congruence. }
    split; [exact Hst|].
    destruct (bar_full_at_threshold _ _ Ha Hinv) as [Hw Hc].
    split; [exact Hw|].
    unfold draw_progress_bar.
    replace (Qeq_bool a 0) with false
      by (symmetry; apply not_true_iff_false; rewrite Qeq_bool_iff; lra).
    cbn [fst snd]. rewrite Hw, Hc. right. left. reflexivity.
Qed.

End Overlay.

(** A time of 7 s against the threshold of 5 s, on a 640 x 480 frame. *)
Lemma progress_bar_is_full_and_red_at_the_threshold_witness :
  bar_fill_width 7 5 = bar_width
  /\ snd (draw_progress_bar (fun _ _ _ _ => (100, 12)) (fun _ => ""%string)
            480 640 7 5) = None.
Proof.
  destruct (progress_bar_is_full_and_red_at_the_threshold
              (fun _ _ _ _ => (100, 12)) (fun _ => ""%string) 480 640 7 5)
    as (H1 & _ & H2).
  - reflexivity.
  - discriminate.
  - split; [exact H1|exact H2].
Defined.

(** The seventh call of the scenario raises the alert at 5 s. *)
Lemma alert_comes_with_a_full_red_bar_witness :
  exists fr,
    snd (step (absent_at 6) (feed (default_at 0) (firstn 6 scenario_frames)))
    = inr fr
    /\ FrameResult.alert_active fr = true
    /\ FrameResult.state fr = not_looking
    /\ bar_fill_width (FrameResult.time_not_looking fr) 5 = bar_width.
Proof.
  eexists. split; [vm_compute; reflexivity|]. split; [reflexivity|].
  destruct (alert_comes_with_a_full_red_bar
              (fun _ _ _ _ => (100, 12)) (fun _ => ""%string)
              0 5 25 20 5 3 (default_at 0) (firstn 6 scenario_frames)
              (absent_at 6)
              (FrameResult.make not_looking 5 true (0 # 5) not_looking)
              480 640) as (H1 & H2 & _).
  - reflexivity.
  - reflexivity.
  - repeat split; vm_compute; discriminate.
  - vm_compute. reflexivity.
  - reflexivity.
  - split; [exact H1|exact H2].
Defined.
